(** * sequelize-handlers: CRUD route handlers over a Sequelize model

    A shallow embedding of [index.js] (query builder, output formatter,
    controller factory and its inline route handlers) and of the handlers
    module ([findOne], [findAll], [createRecord], [updateRecord],
    [deleteRecord]), with the properties of the specification stated over
    them.

    - JavaScript values are a small JSON-like datatype; objects are property
      lists in enumeration order, and the [where] clause of a query, which is
      only ever used as a map, is a [gmap].
    - A request handler is a computation over a world holding the request,
      the storage state, the log of storage calls and the response sent so
      far; a promise chain is the error monad over that world, [.then] is
      bind and [.catch] is [catch].
    - The storage layer (Sequelize) and the callbacks of the configuration
      are parameters. *)

From Stdlib Require Import ZArith String Ascii List Bool Lia DecimalString.
From stdpp Require Import gmap strings.

Import ListNotations.
Local Open Scope string_scope.
Local Open Scope Z_scope.

(** ** JavaScript values *)

(** Numbers are the integer-valued ones of the safe range, which is what
    identifiers, limits and row counts are; property lists carry distinct
    names, as objects do. Only own data properties are modelled, not the
    members an object inherits from its prototype. *)
#[warnings="-register-all"]
Inductive value : Type :=
| VUndefined
| VNull
| VBool (b : bool)
| VNum (n : Z)
| VStr (s : string)
| VArr (elems : list value)
| VObj (props : list (string * value)).

Definition obj : Type := list (string * value).

(** ToBoolean. *)
Definition truthy (v : value) : bool :=
  match v with
  | VUndefined | VNull => false
  | VBool b => b
  | VNum n => negb (n =? 0)
  | VStr s => negb (String.eqb s "")
  | VArr _ | VObj _ => true
  end.

(** [typeof v] for the values above. *)
Definition typeof (v : value) : string :=
  match v with
  | VUndefined => "undefined"
  | VNull => "object"
  | VBool _ => "boolean"
  | VNum _ => "number"
  | VStr _ => "string"
  | VArr _ | VObj _ => "object"
  end.

(** [x === true]. *)
Definition is_true (v : value) : bool :=
  match v with
  | VBool true => true
  | _ => false
  end.

Definition Array_isArray (v : value) : bool :=
  match v with
  | VArr _ => true
  | _ => false
  end.

Definition string_of_Z (n : Z) : string := NilZero.string_of_int (Z.to_int n).
Definition string_of_nat (n : nat) : string := NilZero.string_of_uint (Nat.to_uint n).

Definition join (sep : string) (l : list string) : string :=
  match l with
  | [] => ""
  | x :: r => fold_left (fun acc y => acc ++ sep ++ y) r x
  end.

(** The own enumerable properties of a value, in the order [Object.keys]
    lists them: the properties of an object, the indices of an array or of a
    string. *)
Definition index_keys (n : nat) : list string := map string_of_nat (seq 0 n).

Fixpoint chars (s : string) : list value :=
  match s with
  | EmptyString => []
  | String c r => VStr (String c EmptyString) :: chars r
  end.

Definition own_props (v : value) : obj :=
  match v with
  | VObj props => props
  | VArr elems => combine (index_keys (List.length elems)) elems
  | VStr s => combine (index_keys (String.length s)) (chars s)
  | _ => []
  end.

Definition Object_keys (v : value) : list string := map fst (own_props v).

Fixpoint assoc (k : string) (props : obj) : option value :=
  match props with
  | [] => None
  | (k', v) :: r => if String.eqb k k' then Some v else assoc k r
  end.

(** [o.k] on a property list: [undefined] when the property is absent. *)
Definition obj_get (props : obj) (k : string) : value :=
  match assoc k props with
  | Some v => v
  | None => VUndefined
  end.

(** [o.k = v]: overwrite in place, or append a new property. *)
Fixpoint obj_set (k : string) (v : value) (props : obj) : obj :=
  match props with
  | [] => [(k, v)]
  | (k', v') :: r =>
      if String.eqb k k' then (k, v) :: r else (k', v') :: obj_set k v r
  end.

(** ** Exceptions *)

(** One violation of a Sequelize validation or unique-constraint error. *)
Record ErrorItem : Type := { item_message : value; item_path : value }.

(** The values the code throws, catches and compares: the two constants of
    [errors], told apart by identity ([switch (e)]), and any other error
    object with its [name], [message] and, when it has one, [errors] list. *)
Inductive exn : Type :=
| errors_notFound
| errors_invalidModel
| ErrorObject (name : string) (message : value) (errs : option (list ErrorItem)).

Definition e_name (e : exn) : string :=
  match e with
  | errors_notFound => "Error"
  | errors_invalidModel => "TypeError"
  | ErrorObject n _ _ => n
  end.

Definition e_message (e : exn) : value :=
  match e with
  | errors_notFound => VStr "record not found"
  | errors_invalidModel => VStr "'model' must be a valid Sequelize model"
  | ErrorObject _ m _ => m
  end.

Definition e_errors (e : exn) : option (list ErrorItem) :=
  match e with
  | ErrorObject _ _ errs => errs
  | _ => None
  end.

Definition is_notFound (e : exn) : bool :=
  match e with
  | errors_notFound => true
  | _ => false
  end.

Definition TypeError (msg : string) : exn := ErrorObject "TypeError" (VStr msg) None.
Definition ReferenceError (msg : string) : exn := ErrorObject "ReferenceError" (VStr msg) None.

(** The outcome of a synchronous evaluation. *)
Inductive Result (A : Type) : Type :=
| Ok (a : A)
| Throw (e : exn).
Arguments Ok {A} a.
Arguments Throw {A} e.

(** ** Conversions *)

(** The [TypeError] of an object that yields no primitive. *)
Definition no_primitive : exn := TypeError "Cannot convert object to primitive value".

Section Elements.

(** The conversion [Array.prototype.join] applies to the elements. *)
Variable text : value -> Result string.

(** The texts [join] glues together: [null] and [undefined] give the empty
    string, and the first element whose conversion throws ends the call. *)
Fixpoint element_texts (l : list value) : Result (list string) :=
  match l with
  | [] => Ok []
  | e :: r =>
      match (match e with
             | VUndefined | VNull => Ok ""
             | _ => text e
             end) with
      | Throw x => Throw x
      | Ok s =>
          match element_texts r with
          | Throw x => Throw x
          | Ok ss => Ok (s :: ss)
          end
      end
  end.

End Elements.

(** ToString, as a template literal, a property key and [Array.prototype.join]
    apply it. A number, a boolean, [null] and [undefined] print as the
    language prints them; an array prints its elements joined by commas,
    [null] and [undefined] among them as the empty string. An object is
    converted through its [toString] and [valueOf]: the values of its own
    properties are data, never functions, so an object with a property
    named [toString] of its own has no callable [toString], its [valueOf]
    is either such a property too or the inherited one, which returns the
    object, and the conversion throws a [TypeError]; any other object
    inherits [Object.prototype.toString] and prints as [[object Object]]. *)
Fixpoint ToString (v : value) : Result string :=
  match v with
  | VUndefined => Ok "undefined"
  | VNull => Ok "null"
  | VBool true => Ok "true"
  | VBool false => Ok "false"
  | VNum n => Ok (string_of_Z n)
  | VStr s => Ok s
  | VArr elems =>
      match element_texts ToString elems with
      | Throw x => Throw x
      | Ok parts => Ok (join "," parts)
      end
  | VObj props =>
      match assoc "toString" props with
      | Some _ => Throw no_primitive
      | None => Ok "[object Object]"
      end
  end.

(** [v[k]] where [v] is neither [undefined] nor [null]: the own property
    ([length] included for arrays and strings), [undefined] when absent. *)
Definition own_prop (v : value) (k : string) : value :=
  match v with
  | VArr elems =>
      obj_get (own_props v ++ [("length", VNum (Z.of_nat (List.length elems)))])%list k
  | VStr s =>
      obj_get (own_props v ++ [("length", VNum (Z.of_nat (String.length s)))])%list k
  | _ => obj_get (own_props v) k
  end.

(** [v[k]] for a name [k]: a [TypeError] on [undefined] and [null]. *)
Definition get_prop (v : value) (k : string) : Result value :=
  match v with
  | VUndefined => Throw (TypeError "Cannot read properties of undefined")
  | VNull => Throw (TypeError "Cannot read properties of null")
  | _ => Ok (own_prop v k)
  end.

(** [v[k]] for a value [k]: [v] is checked first, then the key is
    converted to a string. *)
Definition get_computed (v k : value) : Result value :=
  match v with
  | VUndefined => Throw (TypeError "Cannot read properties of undefined")
  | VNull => Throw (TypeError "Cannot read properties of null")
  | _ =>
      match ToString k with
      | Throw e => Throw e
      | Ok name => Ok (own_prop v name)
      end
  end.

(** [s.split(',')]. *)
Fixpoint split_comma (s : string) : list string :=
  match s with
  | EmptyString => [EmptyString]
  | String c r =>
      if Ascii.eqb c ","%char then EmptyString :: split_comma r
      else match split_comma r with
           | h :: t => String c h :: t
           | [] => [String c EmptyString]
           end
  end.

(** ** Requests, query descriptors and configuration *)

(** The [methods] table. *)
Inductive Method : Type := GET | PUT | POST | PATCH | DELETE.

Definition Method_eqb (a b : Method) : bool :=
  match a, b with
  | GET, GET | PUT, PUT | POST, POST | PATCH, PATCH | DELETE, DELETE => true
  | _, _ => false
  end.

(** An Express request: [req.params.id] is a path segment, hence a string,
    or is missing; [req.query] is always an object; [req.body] is whatever
    the body parser left there. *)
Record Request : Type := {
  req_params_id : option string;
  req_query : obj;
  req_body : value
}.

Definition param_value (p : option string) : value :=
  match p with
  | Some s => VStr s
  | None => VUndefined
  end.

Definition set_req_query (k : string) (v : value) (req : Request) : Request :=
  {| req_params_id := req_params_id req;
     req_query := obj_set k v (req_query req);
     req_body := req_body req |}.

(** The query descriptor handed to Sequelize. [where] and [limit], [offset]
    are always present; the other properties exist once assigned (and
    [include] until deleted). *)
Record Query : Type := {
  q_where : gmap string value;
  q_include : option value;
  q_limit : value;
  q_offset : value;
  q_returning : option value;
  q_attributes : option value
}.

Definition set_where (k : string) (v : value) (q : Query) : Query :=
  {| q_where := <[k := v]> (q_where q); q_include := q_include q;
     q_limit := q_limit q; q_offset := q_offset q;
     q_returning := q_returning q; q_attributes := q_attributes q |}.

Definition set_include (v : option value) (q : Query) : Query :=
  {| q_where := q_where q; q_include := v;
     q_limit := q_limit q; q_offset := q_offset q;
     q_returning := q_returning q; q_attributes := q_attributes q |}.

Definition set_limit (v : value) (q : Query) : Query :=
  {| q_where := q_where q; q_include := q_include q;
     q_limit := v; q_offset := q_offset q;
     q_returning := q_returning q; q_attributes := q_attributes q |}.

Definition set_offset (v : value) (q : Query) : Query :=
  {| q_where := q_where q; q_include := q_include q;
     q_limit := q_limit q; q_offset := v;
     q_returning := q_returning q; q_attributes := q_attributes q |}.

Definition set_returning (v : value) (q : Query) : Query :=
  {| q_where := q_where q; q_include := q_include q;
     q_limit := q_limit q; q_offset := q_offset q;
     q_returning := Some v; q_attributes := q_attributes q |}.

Definition set_attributes (v : value) (q : Query) : Query :=
  {| q_where := q_where q; q_include := q_include q;
     q_limit := q_limit q; q_offset := q_offset q;
     q_returning := q_returning q; q_attributes := Some v |}.

(** A record of the model, as its JSON form. *)
Definition instance : Type := obj.

(** An element of an [options.middleware] array: a function, known by its
    name, or a piece of data. *)
Inductive MiddlewareItem : Type :=
| MiddlewareFunction (name : string)
| NotAFunction (v : value).

(** [options.middleware]: an array of such elements, or a value made of
    data alone (the default [{pre: [], post: []}], [undefined], an array of
    names). *)
Inductive MiddlewareOption : Type :=
| MiddlewareArray (items : list MiddlewareItem)
| MiddlewareData (v : value).

Definition is_function (item : MiddlewareItem) : bool :=
  match item with
  | MiddlewareFunction _ => true
  | NotAFunction _ => false
  end.

(** The elements [forEach] visits when [options.middleware] is truthy and
    [Array.isArray(options.middleware)] holds (an array is truthy, and an
    array of data is an array all the same). *)
Definition middleware_items (m : MiddlewareOption) : option (list MiddlewareItem) :=
  match m with
  | MiddlewareArray items => Some items
  | MiddlewareData (VArr elems) => Some (map NotAFunction elems)
  | MiddlewareData _ => None
  end.

(** The callbacks of [options.hooks]; a field is [None] when the property
    is not a function. A callback works on the objects it is given, in
    place, and may throw. *)
Record Hooks : Type := {
  beforeQuery : option (Query -> Request -> Result (Query * Request));
  afterCreate : option (instance -> Result instance);
  beforeUpdate : option (instance -> Result instance);
  afterUpdate : option (instance -> Result instance)
}.

(** The merged configuration. The flags are JavaScript values, compared
    with [=== true] and [!== true]. *)
Record Options : Type := {
  allowChangingPrimaryKey : value;
  includeRelationsInGetAll : value;
  disableBodyParser : value;
  overrideOutputName : value;
  opt_limit : value;
  restrictedFields : value;
  relationships : value;
  handlers : value;
  middleware : MiddlewareOption;
  useLike : value;
  hooks : option Hooks
}.

(** What the code reads of a Sequelize model. *)
Record Model : Type := {
  instanceof_Model : bool;
  model_name : string;
  primaryKeyField : value;
  dialect_name : option string
}.

(** ** index.js: the query builder *)

(** The request and the configuration [buildWhere] is called on, both
    reachable from it by reference. *)
Record Env : Type := { env_req : Request; env_options : Options }.

Definition with_req (req : Request) (env : Env) : Env :=
  {| env_req := req; env_options := env_options env |}.

(** The pattern-match condition of one searched field (lines 60-68); the
    template literal converts the value to a string, and throws when the
    value has none. *)
Definition search_condition (options : Options) (v : value) : Result value :=
  match ToString v with
  | Throw e => Throw e
  | Ok text =>
      Ok (if is_true (useLike options)
          then VObj [("$like", VStr ("%" ++ text ++ "%"))]
          else VObj [("$iLike", VStr ("%" ++ text ++ "%"))])
  end.

(** Lines 59-69, [Object.keys(req.query.search).forEach]: the fields are
    assigned in order, and the first condition that throws ends the loop
    and the function. *)
Fixpoint assign_searches (options : Options) (search : value) (fields : list string)
    (query : Query) : Result Query :=
  match fields with
  | [] => Ok query
  | field :: rest =>
      match search_condition options (own_prop search field) with
      | Throw e => Throw e
      | Ok condition => assign_searches options search rest (set_where field condition query)
      end
  end.

(** Lines 72-78: [req.query.attributes.split(',')] inside [try]. Only a
    string has a [split] method; on any other value the call throws a
    [TypeError], which the empty [catch] swallows, and nothing is assigned. *)
Definition split_attributes (req : Request) : Request :=
  match obj_get (req_query req) "attributes" with
  | VStr s => set_req_query "attributes" (VArr (map VStr (split_comma s))) req
  | _ => req
  end.

(** [buildWhere] up to the hook (lines 22-81): the descriptor, and the
    request as the function leaves it, or the exception of the search
    loop, thrown before the request is touched. *)
Definition buildWhere_descriptor (method : Method) (env : Env) : Result (Query * Env) :=
  let req := env_req env in
  let options := env_options env in
  let query :=
    {| q_where := ∅; q_include := Some (relationships options);
       q_limit := VUndefined; q_offset := VUndefined;
       q_returning := None; q_attributes := None |} in
  let query :=
    if truthy (param_value (req_params_id req))
    then set_where "id" (param_value (req_params_id req)) query
    else query in
  let query :=
    if Method_eqb method POST then set_returning (VBool true) query else query in
  let query :=
    if Method_eqb method DELETE then set_limit (VNum 1) query else query in
  if Method_eqb method GET then
    let query :=
      if truthy (obj_get (req_query req) "limit")
      then set_limit (obj_get (req_query req) "limit") query
      else if truthy (opt_limit options)
           then set_limit (opt_limit options) query
           else query in
    let query :=
      if truthy (obj_get (req_query req) "offset")
      then set_offset (obj_get (req_query req) "offset") query
      else query in
    let filter := obj_get (req_query req) "filter" in
    let query :=
      if truthy filter
      then fold_left (fun q field => set_where field (own_prop filter field) q)
                     (Object_keys filter) query
      else query in
    let search := obj_get (req_query req) "search" in
    match (if truthy search
           then assign_searches options search (Object_keys search) query
           else Ok query) with
    | Throw e => Throw e
    | Ok query =>
        if truthy (obj_get (req_query req) "attributes")
        then
          let req := split_attributes req in
          Ok (set_attributes (obj_get (req_query req) "attributes") query, with_req req env)
        else Ok (query, env)
    end
  else Ok (query, env).

(** Lines 83-85: the optional [beforeQuery] callback, given the descriptor
    and the request. *)
Definition call_beforeQuery (options : Options) (query : Query) (req : Request)
  : Result (Query * Request) :=
  match hooks options with
  | Some h =>
      match beforeQuery h with
      | Some f => f query req
      | None => Ok (query, req)
      end
  | None => Ok (query, req)
  end.

Definition buildWhere (method : Method) (env : Env) : Result (Query * Env) :=
  match buildWhere_descriptor method env with
  | Throw e => Throw e
  | Ok (query, env) =>
      match call_beforeQuery (env_options env) query (env_req env) with
      | Ok (query, req) => Ok (query, with_req req env)
      | Throw e => Throw e
      end
  end.

(** ** index.js: the output formatter *)

(** [response[key] = results] on a fresh object: the key is converted to a
    string, which throws when it has none. *)
Definition assign_key (key results : value) : Result value :=
  match ToString key with
  | Throw e => Throw e
  | Ok name => Ok (VObj (obj_set name results []))
  end.

Section FormatOutput.

(** [Sequelize.Utils.pluralize]. *)
Variable pluralize : value -> value.

Definition formatOutput (results : value) (model : Model) (options : Options)
  : Result value :=
  let plural := Array_isArray results in
  if truthy (overrideOutputName options) then
    if plural
    then assign_key (pluralize (overrideOutputName options)) results
    else assign_key (overrideOutputName options) results
  else
    if plural
    then assign_key (pluralize (VStr (model_name model))) results
    else assign_key (VStr (model_name model)) results.

End FormatOutput.

(** ** The storage layer and the world of a request handler *)

(** The Sequelize operations the handlers call. Each returns a promise: its
    outcome is a fulfilment or a rejection, together with the storage state
    it leaves. [model_destroy] fulfils with the number of affected rows. *)
Record Storage : Type := {
  DB : Type;
  model_findOne : Query -> DB -> Result (option instance) * DB;
  model_findAll : Query -> DB -> Result (list instance) * DB;
  model_create : value -> Query -> DB -> Result instance * DB;
  model_destroy : Query -> DB -> Result Z * DB;
  instance_set : string -> value -> instance -> instance;
  instance_save : instance -> DB -> Result instance * DB
}.

(** The storage calls a handler has made, oldest first. *)
Inductive Call : Type :=
| CallFindOne (q : Query)
| CallFindAll (q : Query)
| CallCreate (input : value) (q : Query)
| CallDestroy (q : Query)
| CallSave (r : instance).

(** [res.status(s).json(b)]. *)
Record Response : Type := { status : Z; json : value }.

Record World (S : Storage) : Type := {
  w_db : DB S;
  w_calls : list Call;
  w_response : option Response
}.
Arguments w_db {S} w.
Arguments w_calls {S} w.
Arguments w_response {S} w.

(** A handler, or a promise chain: it runs on a world and ends fulfilled or
    rejected. A rejection that leaves a handler is an exception (or an
    unhandled rejection) the handler did not deal with. *)
Definition M (S : Storage) (A : Type) : Type := World S -> Result A * World S.

Section Monad.

Context {S : Storage}.

Definition ret {A} (a : A) : M S A := fun w => (Ok a, w).

Definition throw {A} (e : exn) : M S A := fun w => (Throw e, w).

(** [.then(k)], and sequencing. *)
Definition bind {A B} (c : M S A) (k : A -> M S B) : M S B :=
  fun w =>
    match c w with
    | (Ok a, w') => k a w'
    | (Throw e, w') => (Throw e, w')
    end.

(** [.catch(h)], and [try]/[catch]. *)
Definition catch {A} (c : M S A) (h : exn -> M S A) : M S A :=
  fun w =>
    match c w with
    | (Ok a, w') => (Ok a, w')
    | (Throw e, w') => h e w'
    end.

Definition lift {A} (r : Result A) : M S A := fun w => (r, w).

Definition respond (s : Z) (b : value) : M S unit :=
  fun w =>
    (Ok tt, {| w_db := w_db w; w_calls := w_calls w;
               w_response := Some {| status := s; json := b |} |}).

(** [res.status(s).json(body)] where evaluating [body] may throw: nothing
    is sent then. *)
Definition respond_with (s : Z) (body : Result value) : M S unit :=
  fun w =>
    match body with
    | Ok b => respond s b w
    | Throw e => (Throw e, w)
    end.

(** A storage call: logged, then run on the storage state. *)
Definition storage_call {A} (c : Call) (op : DB S -> Result A * DB S) : M S A :=
  fun w =>
    let '(r, db) := op (w_db w) in
    (r, {| w_db := db; w_calls := (w_calls w ++ [c])%list;
           w_response := w_response w |}).

Definition findOne_call (q : Query) : M S (option instance) :=
  storage_call (CallFindOne q) (model_findOne S q).
Definition findAll_call (q : Query) : M S (list instance) :=
  storage_call (CallFindAll q) (model_findAll S q).
Definition create_call (input : value) (q : Query) : M S instance :=
  storage_call (CallCreate input q) (model_create S input q).
Definition destroy_call (q : Query) : M S Z :=
  storage_call (CallDestroy q) (model_destroy S q).
Definition save_call (r : instance) : M S instance :=
  storage_call (CallSave r) (instance_save S r).

(** A computation that leaves the calls already logged in place: it may
    only add to the log. *)
Definition extends {A} (c : M S A) : Prop :=
  forall w, exists l, w_calls (snd (c w)) = (w_calls w ++ l)%list.

(** A computation whose first storage call is [c]. *)
Definition opens_with {A} (c : Call) (m : M S A) : Prop :=
  forall w, exists l, w_calls (snd (m w)) = (w_calls w ++ c :: l)%list.

End Monad.

Notation "'let*' x ':=' c 'in' k" := (bind c (fun x => k))
  (at level 10, x pattern, c at level 100, k at level 200).

(** The world a request arrives in: nothing called, nothing sent. *)
Definition initial {S : Storage} (db : DB S) : World S :=
  {| w_db := db; w_calls := []; w_response := None |}.

(** ** Pieces shared by the route handlers *)

(** [{ errors: [{ message: e.message }] }]. *)
Definition message_body (e : exn) : value :=
  VObj [("errors", VArr [VObj [("message", e_message e)]])].

(** [{ message: x.message, field: x.path }]. *)
Definition violation (x : ErrorItem) : value :=
  VObj [("message", item_message x); ("field", item_path x)].

(** [{ errors: results }] after [e.errors.forEach] has pushed one entry per
    violation. *)
Definition violations_body (items : list ErrorItem) : value :=
  VObj [("errors", VArr (map violation items))].

Definition is_validation_error (e : exn) : bool :=
  String.eqb (e_name e) "SequelizeValidationError"
  || String.eqb (e_name e) "SequelizeUniqueConstraintError".

(** The body of the 422 sent when the primary key would change. *)
Definition primary_key_body (model : Model) : value :=
  VObj [("errors", VArr [VObj [("message", VStr "cannot change record primary key");
                               ("field", primaryKeyField model)]])].

(** [Object.keys(v)], which throws on [undefined] and [null]. *)
Definition Object_keys_of (v : value) : Result (list string) :=
  match v with
  | VUndefined | VNull =>
      Throw (TypeError "Cannot convert undefined or null to object")
  | _ => Ok (Object_keys v)
  end.

(** Calling one of the optional callbacks on a record. *)
Definition call_hook (f : option (instance -> Result instance)) (r : instance)
  : Result instance :=
  match f with
  | Some g => g r
  | None => Ok r
  end.

Definition hook_of (options : Options) (sel : Hooks -> option (instance -> Result instance))
  : option (instance -> Result instance) :=
  match hooks options with
  | Some h => sel h
  | None => None
  end.

Section LooseEquality.

(** StringToNumber of the language, on the numbers of [value]: [None]
    when the string is not the numeral of such a number. *)
Variable StringToNumber : string -> option Z.

Definition number_eqb (a : option Z) (n : Z) : bool :=
  match a with
  | Some m => m =? n
  | None => false
  end.

(** [id == v] where [id] is [req.params.id], a string or [undefined]:
    [undefined] equals only [undefined] and [null], and nothing is
    converted to find that out; a string is compared with a string as it
    is, with a number or a boolean through ToNumber, and with an array or
    an object through the string it converts to, the comparison throwing
    when the conversion does. *)
Definition loose_eq (id : option string) (v : value) : Result bool :=
  match id, v with
  | None, (VUndefined | VNull) => Ok true
  | None, _ => Ok false
  | Some _, (VUndefined | VNull) => Ok false
  | Some s, VBool b => Ok (number_eqb (StringToNumber s) (if b then 1 else 0))
  | Some s, VNum n => Ok (number_eqb (StringToNumber s) n)
  | Some s, VStr t => Ok (String.eqb s t)
  | Some s, (VArr _ | VObj _) =>
      match ToString v with
      | Throw e => Throw e
      | Ok t => Ok (String.eqb s t)
      end
  end.

(** Lines 228-232 of index.js, lines 74-78 of the handlers module: does
    the guard of the update reject the request? The property reads throw
    when [req.body] or [req.body[model.name]] is missing, the comparison
    when the value in the body has no primitive. *)
Definition changes_primary_key (model : Model) (options : Options) (req : Request)
  : Result bool :=
  if negb (is_true (allowChangingPrimaryKey options)) && truthy (primaryKeyField model)
  then
    match get_prop (req_body req) (model_name model) with
    | Throw e => Throw e
    | Ok fields =>
        match get_computed fields (primaryKeyField model) with
        | Throw e => Throw e
        | Ok pk =>
            if negb (String.eqb (typeof pk) "undefined")
            then match loose_eq (req_params_id req) pk with
                 | Throw e => Throw e
                 | Ok equal => Ok (negb equal)
                 end
            else Ok false
        end
    end
  else Ok false.

End LooseEquality.

(** ** index.js: the route handlers registered by [createController] *)

Module Index.
Section Handlers.

Context {S : Storage}.
Variable StringToNumber : string -> option Z.
Variable pluralize : value -> value.
Variable model : Model.
Variable options : Options.

(** [buildWhere(method, req, options)] as an argument of a storage call:
    evaluated before the promise exists, so what it throws leaves the
    handler. The request comes back as the call left it. *)
Definition build (method : Method) (req : Request) : M S (Query * Request) :=
  match buildWhere method {| env_req := req; env_options := options |} with
  | Ok (query, env) => ret (query, env_req env)
  | Throw e => throw e
  end.

(** Lines 203-219, the [catch] of the create handler. *)
Definition post_catch (e : exn) : M S unit :=
  if is_validation_error e then
    let* items := lift (match e_errors e with
                        | Some items => Ok items
                        | None => Throw (TypeError "Cannot read properties of undefined")
                        end) in
    respond 422 (violations_body items)
  else respond 500 (message_body e).

(** Lines 263-288, the [catch] of the update handler. *)
Definition put_catch (e : exn) : M S unit :=
  if is_validation_error e then
    let* items := lift (match e_errors e with
                        | Some items => Ok items
                        | None => Throw (TypeError "Cannot read properties of undefined")
                        end) in
    respond 422 (violations_body items)
  else if String.eqb (e_name e) "SequelizeDatabaseError" then
    respond 422 (message_body e)
  else if is_notFound e then respond 404 (message_body e)
  else respond 500 (message_body e).

(** Lines 300-312, the [catch] of the delete handler. *)
Definition delete_catch (e : exn) : M S unit :=
  if String.eqb (e_name e) "SequelizeForeignKeyConstraintError" then
    respond 400 (VObj [("errors", VArr [VObj [("message", VStr "foreign key constraint error")]])])
  else if is_notFound e then respond 404 (message_body e)
  else respond 500 (message_body e).

(** [router.get('/')], lines 158-173. *)
Definition get_all (req : Request) : M S unit :=
  let* (query, req) := build GET req in
  let query :=
    if negb (is_true (includeRelationsInGetAll options))
    then set_include None query
    else query in
  catch
    (let* results := findAll_call query in
     respond_with 200 (formatOutput pluralize (VArr (map VObj results)) model options))
    (fun e => respond 500 (message_body e)).

(** [router.get('/:id')], lines 175-190. *)
Definition get_one (req : Request) : M S unit :=
  let* (query, req) := build GET req in
  catch
    (let* results := findOne_call query in
     match results with
     | None => throw errors_notFound
     | Some r => respond_with 200 (formatOutput pluralize (VObj r) model options)
     end)
    (fun e =>
       if is_notFound e then respond 404 (message_body e)
       else respond 500 (message_body e)).

(** [router.post('/')], lines 194-221. *)
Definition post (req : Request) : M S unit :=
  let* input := lift (get_prop (req_body req) (model_name model)) in
  let* (query, req) := build POST req in
  catch
    (let* results := create_call input query in
     let* results := lift (call_hook (hook_of options afterCreate) results) in
     respond_with 200 (formatOutput pluralize (VObj results) model options))
    post_catch.

(** [router.put('/:id')], lines 225-289. *)
Definition put (req : Request) : M S unit :=
  let* changed := lift (changes_primary_key StringToNumber model options req) in
  if (changed : bool) then respond 422 (primary_key_body model)
  else
    let* (query, req) := build PUT req in
    catch
      (let* results :=
         (let* result := findOne_call query in
          match result with
          | None => throw errors_notFound
          | Some result =>
              let* input := lift (get_prop (req_body req) (model_name model)) in
              let* fields := lift (Object_keys_of input) in
              let result :=
                fold_left (fun r field => instance_set S field (own_prop input field) r)
                          fields result in
              let* result := lift (call_hook (hook_of options beforeUpdate) result) in
              save_call result
          end) in
       let* results := lift (call_hook (hook_of options afterUpdate) results) in
       respond_with 200 (formatOutput pluralize (VObj results) model options))
      put_catch.

(** [router.delete('/:id')], lines 293-313. *)
Definition delete (req : Request) : M S unit :=
  let* (query, req) := build DELETE req in
  catch
    (let* affected := destroy_call query in
     if negb (affected =? 1) then throw errors_notFound
     else respond 200 (VObj [("status", VStr "ok")]))
    delete_catch.

End Handlers.
End Index.

(** ** The handlers module *)

(** The [HOOK] table of the constants module, as far as the handlers use
    it. *)
Inductive HOOK : Type := AFTER_CREATE | BEFORE_UPDATE | AFTER_UPDATE.

Module Handlers.
Section Handlers.

Context {S : Storage}.
Variable StringToNumber : string -> option Z.
Variable pluralize : value -> value.

(** The two helpers imported from the utils module are parameters:
    [handleRequestError(req, res)] is the rejection handler of every chain,
    [execHook] runs a callback of the configuration on a record. The third
    import, [formatOutput], is the function of that name in index.js. *)
Variable handleRequestError : Request -> exn -> M S unit.
Variable execHook : HOOK -> Options -> Model -> instance -> Result instance.

Definition findOne (model : Model) (query : Query) (req : Request) (options : Options)
  : M S unit :=
  catch
    (let* results := findOne_call query in
     match results with
     | None => throw errors_notFound
     | Some r => respond_with 200 (formatOutput pluralize (VObj r) model options)
     end)
    (handleRequestError req).

Definition findAll (model : Model) (query : Query) (req : Request) (options : Options)
  : M S unit :=
  catch
    (let* results := findAll_call query in
     respond_with 200 (formatOutput pluralize (VArr (map VObj results)) model options))
    (fun e => respond 500 (message_body e)).

Definition createRecord (model : Model) (query : Query) (input : value)
    (req : Request) (options : Options) : M S unit :=
  catch
    (let* results := create_call input query in
     let* results := lift (execHook AFTER_CREATE options model results) in
     respond_with 201 (formatOutput pluralize (VObj results) model options))
    (handleRequestError req).

Definition updateRecord (model : Model) (query : Query) (input : value)
    (req : Request) (options : Options) : M S unit :=
  let* changed := lift (changes_primary_key StringToNumber model options req) in
  if (changed : bool) then respond 422 (primary_key_body model)
  else
    catch
      (let* results :=
         (let* result := findOne_call query in
          match result with
          | None => throw errors_notFound
          | Some result =>
              let* fields := lift (Object_keys_of input) in
              let result :=
                fold_left (fun r field => instance_set S field (own_prop input field) r)
                          fields result in
              let* result := lift (execHook BEFORE_UPDATE options model result) in
              save_call result
          end) in
       let* results := lift (execHook AFTER_UPDATE options model results) in
       respond_with 200 (formatOutput pluralize (VObj results) model options))
      (handleRequestError req).

(** The check of the affected rows is commented out (lines 117-119). *)
Definition deleteRecord (model : Model) (query : Query) (req : Request) : M S unit :=
  catch
    (let* affected := destroy_call query in
     respond 200 (VObj [("status", VStr "ok")]))
    (handleRequestError req).

End Handlers.
End Handlers.

(** ** index.js: the controller factory *)

(** The [options] argument of [createController]: each property is present
    ([Some], possibly holding [undefined]) or absent. *)
Record UserOptions : Type := {
  u_allowChangingPrimaryKey : option value;
  u_includeRelationsInGetAll : option value;
  u_disableBodyParser : option value;
  u_overrideOutputName : option value;
  u_limit : option value;
  u_restrictedFields : option value;
  u_relationships : option value;
  u_handlers : option value;
  u_middleware : option MiddlewareOption;
  u_useLike : option value;
  u_hooks : option Hooks
}.

(** [{}], or no argument at all. *)
Definition no_options : UserOptions :=
  {| u_allowChangingPrimaryKey := None; u_includeRelationsInGetAll := None;
     u_disableBodyParser := None; u_overrideOutputName := None;
     u_limit := None; u_restrictedFields := None; u_relationships := None;
     u_handlers := None; u_middleware := None; u_useLike := None;
     u_hooks := None |}.

(** Lines 117-136, the defaults. The [handlers] default is written between
    array brackets in the source; its entries are the four [key: true]
    pairs, read here as the object they spell. *)
Definition defaults : Options :=
  {| allowChangingPrimaryKey := VBool false;
     includeRelationsInGetAll := VBool false;
     disableBodyParser := VBool false;
     overrideOutputName := VNull;
     opt_limit := VUndefined;
     restrictedFields := VArr [];
     relationships := VArr [];
     handlers := VObj [("get", VBool true); ("put", VBool true);
                       ("post", VBool true); ("delete", VBool true)];
     middleware := MiddlewareData (VObj [("pre", VArr []); ("post", VArr [])]);
     useLike := VBool true;
     hooks := None |}.

Definition assigned {A} (d : A) (u : option A) : A :=
  match u with
  | Some v => v
  | None => d
  end.

(** [Object.assign(defaults, options)]: every property of [options]
    replaces the default of that name, whole. *)
Definition Object_assign (d : Options) (u : UserOptions) : Options :=
  {| allowChangingPrimaryKey := assigned (allowChangingPrimaryKey d) (u_allowChangingPrimaryKey u);
     includeRelationsInGetAll := assigned (includeRelationsInGetAll d) (u_includeRelationsInGetAll u);
     disableBodyParser := assigned (disableBodyParser d) (u_disableBodyParser u);
     overrideOutputName := assigned (overrideOutputName d) (u_overrideOutputName u);
     opt_limit := assigned (opt_limit d) (u_limit u);
     restrictedFields := assigned (restrictedFields d) (u_restrictedFields u);
     relationships := assigned (relationships d) (u_relationships u);
     handlers := assigned (handlers d) (u_handlers u);
     middleware := assigned (middleware d) (u_middleware u);
     useLike := assigned (useLike d) (u_useLike u);
     hooks := match u_hooks u with Some h => Some h | None => hooks d end |}.

Definition with_useLike (v : value) (o : Options) : Options :=
  {| allowChangingPrimaryKey := allowChangingPrimaryKey o;
     includeRelationsInGetAll := includeRelationsInGetAll o;
     disableBodyParser := disableBodyParser o;
     overrideOutputName := overrideOutputName o;
     opt_limit := opt_limit o;
     restrictedFields := restrictedFields o;
     relationships := relationships o;
     handlers := handlers o;
     middleware := middleware o;
     useLike := v;
     hooks := hooks o |}.

(** What [createController] puts on the router, in order. *)
Inductive Registration : Type :=
| UseBodyParser
| UseMiddleware (name : string)
| Route (verb : Method) (path : string).

(** The names bound where the body of [createController] runs: the
    parameters and the local of the function, the constants of the module
    and the bindings Node gives every module. [req] and [res] are
    parameters of the route callbacks only. *)
Definition createController_scope : list string :=
  ["model"; "options"; "router";
   "Sequelize"; "pluralize"; "parser"; "express"; "methods"; "errors";
   "buildWhere"; "formatOutput";
   "exports"; "require"; "module"; "__filename"; "__dirname"].

(** Reading an identifier that the scope does not bind: it is looked up on
    the global object, and a [ReferenceError] is thrown when it is not
    there either. *)
Definition read_free (globals : obj) (x : string) : Result value :=
  match assoc x globals with
  | Some v => Ok v
  | None => Throw (ReferenceError (x ++ " is not defined"))
  end.

(** [x.handlers[verb] === true] for a value [x]. *)
Definition handler_enabled (x : value) (verb : string) : Result bool :=
  match get_prop x "handlers" with
  | Throw e => Throw e
  | Ok hs =>
      match get_prop hs verb with
      | Throw e => Throw e
      | Ok flag => Ok (is_true flag)
      end
  end.

Definition register (enabled : bool) (routes router : list Registration)
  : list Registration :=
  if enabled then (router ++ routes)%list else router.

(** [router.use(middleware)] of Express: the function is put on the
    router; anything that is not a function is taken for a path, no
    function follows it, and the call is refused with a [TypeError]. *)
Definition router_use (item : MiddlewareItem) : Result Registration :=
  match item with
  | MiddlewareFunction name => Ok (UseMiddleware name)
  | NotAFunction _ => Throw (TypeError "Router.use() requires a middleware function")
  end.

(** Lines 152-154, [options.middleware.forEach]. *)
Fixpoint use_all (items : list MiddlewareItem) (router : list Registration)
  : Result (list Registration) :=
  match items with
  | [] => Ok router
  | item :: rest =>
      match router_use item with
      | Throw e => Throw e
      | Ok registration => use_all rest (router ++ [registration])%list
      end
  end.

(** Lines 157-316: the routes. The test of line 157 reads
    [options.handlers.get]; those of lines 193, 224 and 292 read
    [req.handlers.post], [req.handlers.put] and [req.handlers.delete],
    where [req] is free. *)
Definition register_routes (globals : obj) (options : Options) (router : list Registration)
  : Result (Options * list Registration) :=
  match get_prop (handlers options) "get" with
  | Throw e => Throw e
  | Ok flag =>
      let router := register (is_true flag) [Route GET "/"; Route GET "/:id"] router in
      match read_free globals "req" with
      | Throw e => Throw e
      | Ok req =>
          match handler_enabled req "post" with
          | Throw e => Throw e
          | Ok enabled =>
              let router := register enabled [Route POST "/"] router in
              match handler_enabled req "put" with
              | Throw e => Throw e
              | Ok enabled =>
                  let router := register enabled [Route PUT "/:id"] router in
                  match handler_enabled req "delete" with
                  | Throw e => Throw e
                  | Ok enabled =>
                      Ok (options, register enabled [Route DELETE "/:id"] router)
                  end
              end
          end
      end
  end.

(** [createController(model, options)]: the merged configuration and the
    registrations made, or the exception thrown. *)
Definition createController (globals : obj) (model : Model) (user : UserOptions)
  : Result (Options * list Registration) :=
  if negb (instanceof_Model model) then Throw errors_invalidModel
  else
    let options := Object_assign defaults user in
    let router : list Registration := [] in
    let router := register (negb (is_true (disableBodyParser options))) [UseBodyParser] router in
    let options :=
      match dialect_name model with
      | Some d => if String.eqb d "postgres" then with_useLike (VBool false) options else options
      | None => options
      end in
    match middleware_items (middleware options) with
    | Some items =>
        match use_all items router with
        | Throw e => Throw e
        | Ok router => register_routes globals options router
        end
    | None => register_routes globals options router
    end.

(** ** Concrete collaborators, to run the handlers on *)

(** StringToNumber on the decimal numerals, which is what a numeric
    identifier in a path looks like, and on the empty string; the other
    strings are given no number here. *)
Definition decimal_number (s : string) : option Z :=
  if String.eqb s "" then Some 0
  else match NilZero.int_of_string s with
       | Some d => Some (Z.of_int d)
       | None => None
       end.

(** The text of a value, empty where the conversion throws. *)
Definition text_of (v : value) : string :=
  match ToString v with
  | Ok s => s
  | Throw _ => ""
  end.

(** The descriptor the query builder hands to the hook, for the examples:
    an empty one where the search loop throws. *)
Definition descriptor (method : Method) (env : Env) : Query * Env :=
  match buildWhere_descriptor method env with
  | Ok built => built
  | Throw _ =>
      ({| q_where := ∅; q_include := None; q_limit := VUndefined; q_offset := VUndefined;
          q_returning := None; q_attributes := None |}, env)
  end.

(** An English plural good enough for the examples. *)
Definition plural_s (v : value) : value := VStr (text_of v ++ "s").

(** A table held in memory: records are found and destroyed by the [id] of
    the [where] clause, created from the input as it is. *)
Module MemoryStore.

Definition matches (q : Query) (r : instance) : bool :=
  match q_where q !! "id" with
  | Some v => String.eqb (text_of (obj_get r "id")) (text_of v)
  | None => true
  end.

Definition same_id (a b : instance) : bool :=
  String.eqb (text_of (obj_get a "id")) (text_of (obj_get b "id")).

Definition store : Storage :=
  {| DB := list instance;
     model_findOne := fun q db => (Ok (List.find (matches q) db), db);
     model_findAll := fun q db => (Ok (List.filter (matches q) db), db);
     model_create := fun input q db => (Ok (own_props input), (db ++ [own_props input])%list);
     model_destroy := fun q db =>
       (Ok (Z.of_nat (List.length (List.filter (matches q) db))),
        List.filter (fun r => negb (matches q r)) db);
     instance_set := obj_set;
     instance_save := fun r db =>
       (Ok r, map (fun r' => if same_id r r' then r else r') db) |}.

End MemoryStore.

(** A storage layer that rejects every write with [e]; [findOne] rejects
    too while the state is [true], and finds [record] otherwise. *)
Definition rejecting (e : exn) (record : instance) : Storage :=
  {| DB := bool;
     model_findOne := fun _ db => (if db then Throw e else Ok (Some record), db);
     model_findAll := fun _ db => (Throw e, db);
     model_create := fun _ _ db => (Throw e, db);
     model_destroy := fun _ db => (Throw e, db);
     instance_set := obj_set;
     instance_save := fun _ db => (Throw e, db) |}.

(** The error Sequelize raises when a title is already taken. *)
Definition title_taken : exn :=
  ErrorObject "SequelizeUniqueConstraintError" (VStr "Validation error")
    (Some [{| item_message := VStr "title must be unique"; item_path := VStr "title" |}]).

Definition post_model : Model :=
  {| instanceof_Model := true; model_name := "post";
     primaryKeyField := VStr "id"; dialect_name := Some "sqlite" |}.

Definition request (id : option string) (query : obj) (body : value) : Request :=
  {| req_params_id := id; req_query := query; req_body := body |}.

(** The claim of the specification about a delete handler sending [q] to
    the storage layer: whenever [destroy] succeeds, whatever the number of
    affected rows, the answer is 200 with the acknowledgement. *)
Definition delete_acknowledged {S : Storage} (handler : M S unit) (q : Query) : Prop :=
  forall db n db',
    model_destroy S q db = (Ok n, db') ->
    w_response (snd (handler (initial db)))
    = Some {| status := 200; json := VObj [("status", VStr "ok")] |}.

(** The claim of the specification about an [attributes] parameter that
    cannot be split: the descriptor carries no projection. *)
Definition malformed_attributes_dropped (env : Env) : Prop :=
  forall q env',
    buildWhere GET env = Ok (q, env') ->
    (forall s, obj_get (req_query (env_req env)) "attributes" <> VStr s) ->
    q_attributes q = None.

(** The claim of the specification about the effects of the query builder:
    the request and the configuration come out as they went in. *)
Definition leaves_request_unchanged (method : Method) (env : Env) : Prop :=
  forall q env', buildWhere method env = Ok (q, env') -> env' = env.


(** No [beforeQuery] callback is configured. *)
Definition no_beforeQuery (options : Options) : Prop :=
  match hooks options with
  | Some h => beforeQuery h = None
  | None => True
  end.

(** ** Reading the query builder *)

(** The fields [Object.keys(req.query.filter).forEach] visits: none when
    the parameter is falsy and the loop is skipped (line 52). *)
Definition filter_keys (req : Request) : list string :=
  if truthy (obj_get (req_query req) "filter")
  then Object_keys (obj_get (req_query req) "filter")
  else [].

(** The same for [req.query.search] (line 58). *)
Definition search_keys (req : Request) : list string :=
  if truthy (obj_get (req_query req) "search")
  then Object_keys (obj_get (req_query req) "search")
  else [].

(** [keys.forEach(f => where[f] = g(f))], on the [where] clause alone. *)
Definition assign_all (g : string -> value) (keys : list string) (m : gmap string value)
  : gmap string value :=
  fold_left (fun m f => <[f := g f]> m) keys m.

(** The [where] clause after lines 29-31: the path identifier, when there
    is one. *)
Definition path_where (req : Request) : gmap string value :=
  if truthy (param_value (req_params_id req))
  then <["id" := param_value (req_params_id req)]> ∅
  else ∅.

(** The condition [search_condition] returns on a value that has a
    text. *)
Definition condition_of (options : Options) (v : value) : value :=
  if is_true (useLike options)
  then VObj [("$like", VStr ("%" ++ text_of v ++ "%"))]
  else VObj [("$iLike", VStr ("%" ++ text_of v ++ "%"))].

(** ** Reading the outcome of a handler *)

(** The value [formatOutput] names the envelope of one record after: the
    configured [overrideOutputName] when it is truthy, the name of the
    model otherwise. *)
Definition output_name (model : Model) (options : Options) : value :=
  if truthy (overrideOutputName options)
  then overrideOutputName options
  else VStr (model_name model).

(** A body of the form [{errors: [...]}]. *)
Definition error_body (b : value) : Prop :=
  exists entries, own_prop b "errors" = VArr entries.

(** A handler has dealt with its request: it ended normally having sent a
    response, which is a 200 or one of the error statuses with an [errors]
    array, or an exception left it and nothing was sent. *)
Definition answered {S : Storage} (out : Result unit * World S) : Prop :=
  match fst out with
  | Ok _ =>
      exists r, w_response (snd out) = Some r
                /\ (status r = 200
                    \/ (In (status r) [400; 404; 422; 500] /\ error_body (json r)))
  | Throw _ => w_response (snd out) = None
  end.

(** The storage calls a handler may leave in the log: none, one call of
    its own kind or, for the update, a [findOne] followed by a [save]. *)
Definition calls_of_list (calls : list Call) : Prop :=
  calls = [] \/ exists q, calls = [CallFindAll q].

Definition calls_of_get_one (calls : list Call) : Prop :=
  calls = [] \/ exists q, calls = [CallFindOne q].

Definition calls_of_create (calls : list Call) : Prop :=
  calls = [] \/ exists input q, calls = [CallCreate input q].

Definition calls_of_update (calls : list Call) : Prop :=
  calls = [] \/ (exists q, calls = [CallFindOne q])
  \/ exists q r, calls = [CallFindOne q; CallSave r].

Definition calls_of_delete (calls : list Call) : Prop :=
  calls = [] \/ exists q, calls = [CallDestroy q].

(** A configuration whose only override is the [hooks] object. *)
Definition with_hooks (h : Hooks) : Options :=
  Object_assign defaults
    {| u_allowChangingPrimaryKey := None; u_includeRelationsInGetAll := None;
       u_disableBodyParser := None; u_overrideOutputName := None;
       u_limit := None; u_restrictedFields := None; u_relationships := None;
       u_handlers := None; u_middleware := None; u_useLike := None;
       u_hooks := Some h |}.

Definition no_hooks : Hooks :=
  {| beforeQuery := None; afterCreate := None; beforeUpdate := None; afterUpdate := None |}.

(** An ordinary exception, as a callback may throw. *)
Definition boom : exn := ErrorObject "Error" (VStr "boom") None.

(** The options [{middleware: ['auth']}]: the name of a middleware where
    the function is expected. *)
Definition middleware_by_name : UserOptions :=
  {| u_allowChangingPrimaryKey := None; u_includeRelationsInGetAll := None;
     u_disableBodyParser := None; u_overrideOutputName := None;
     u_limit := None; u_restrictedFields := None; u_relationships := None;
     u_handlers := None; u_middleware := Some (MiddlewareData (VArr [VStr "auth"]));
     u_useLike := None; u_hooks := None |}.

(** Does the string hold a comma? *)
Fixpoint has_comma (s : string) : bool :=
  match s with
  | EmptyString => false
  | String c r => Ascii.eqb c ","%char || has_comma r
  end.

(** * Properties *)

(** ** The log of storage calls only grows *)

Section Extends.

Context {S : Storage}.

Lemma extends_ret {A} (a : A) : extends (ret a : M S A).
Proof. intros w. exists []. simpl. now rewrite app_nil_r. Qed.

Lemma extends_throw {A} (e : exn) : extends (throw e : M S A).
Proof. intros w. exists []. simpl. now rewrite app_nil_r. Qed.

Lemma extends_lift {A} (r : Result A) : extends (lift r : M S A).
Proof. intros w. exists []. simpl. now rewrite app_nil_r. Qed.

Lemma extends_respond (s : Z) (b : value) : extends (respond s b : M S unit).
Proof. intros w. exists []. simpl. now rewrite app_nil_r. Qed.

Lemma extends_respond_with (s : Z) (b : Result value) :
  extends (respond_with s b : M S unit).
Proof. intros w. exists []. destruct b; simpl; now rewrite app_nil_r. Qed.

Lemma extends_storage_call {A} (c : Call) (op : DB S -> Result A * DB S) :
  extends (storage_call c op).
Proof.
  intros w. exists [c]. unfold storage_call.
  destruct (op (w_db w)) as [r db]. reflexivity.
Qed.

Lemma extends_bind {A B} (c : M S A) (k : A -> M S B) :
  extends c -> (forall a, extends (k a)) -> extends (bind c k).
Proof.
  intros Hc Hk w. unfold bind.
  destruct (Hc w) as [l Hl]. destruct (c w) as [[a | e] w1]; simpl in *.
  - destruct (Hk a w1) as [l' Hl']. exists (l ++ l')%list.
    rewrite Hl', Hl. now rewrite app_assoc.
  - now exists l.
Qed.

Lemma extends_catch {A} (c : M S A) (h : exn -> M S A) :
  extends c -> (forall e, extends (h e)) -> extends (catch c h).
Proof.
  intros Hc Hh w. unfold catch.
  destruct (Hc w) as [l Hl]. destruct (c w) as [[a | e] w1]; simpl in *.
  - now exists l.
  - destruct (Hh e w1) as [l' Hl']. exists (l ++ l')%list.
    rewrite Hl', Hl. now rewrite app_assoc.
Qed.

Lemma opens_storage_call {A} (c : Call) (op : DB S -> Result A * DB S) :
  opens_with c (storage_call c op).
Proof.
  intros w. exists []. unfold storage_call.
  destruct (op (w_db w)) as [r db]. reflexivity.
Qed.

Lemma opens_bind {A B} (c : Call) (m : M S A) (k : A -> M S B) :
  opens_with c m -> (forall a, extends (k a)) -> opens_with c (bind m k).
Proof.
  intros Hm Hk w. unfold bind.
  destruct (Hm w) as [l Hl]. destruct (m w) as [[a | e] w1]; simpl in *.
  - destruct (Hk a w1) as [l' Hl']. exists (l ++ l')%list.
    rewrite Hl', Hl. now rewrite <- app_assoc.
  - now exists l.
Qed.

Lemma opens_catch {A} (c : Call) (m : M S A) (h : exn -> M S A) :
  opens_with c m -> (forall e, extends (h e)) -> opens_with c (catch m h).
Proof.
  intros Hm Hh w. unfold catch.
  destruct (Hm w) as [l Hl]. destruct (m w) as [[a | e] w1]; simpl in *.
  - now exists l.
  - destruct (Hh e w1) as [l' Hl']. exists (l ++ l')%list.
    rewrite Hl', Hl. now rewrite <- app_assoc.
Qed.

(** On a fresh world the opening call heads the log. *)
Lemma opens_initial {A} (c : Call) (m : M S A) (db : DB S) :
  opens_with c m -> exists l, w_calls (snd (m (initial db))) = c :: l.
Proof. intros Hm. exact (Hm (initial db)). Qed.

End Extends.

Create HintDb extends.
#[export] Hint Resolve extends_ret extends_throw extends_lift extends_respond
  extends_respond_with extends_storage_call extends_bind extends_catch : extends.

(** Splits a handler along its [if]s and [match]es and closes every branch
    with the lemmas above. *)
Ltac extends_cases :=
  repeat (intros; cbv beta zeta;
          match goal with
          | |- extends (if ?b then _ else _) => destruct b
          | |- extends (match ?x with _ => _ end) => destruct x
          | |- extends (bind _ _) => apply extends_bind
          | |- extends (catch _ _) => apply extends_catch
          | |- extends _ => solve [auto with extends | apply extends_storage_call]
          end).

(** ** The primary-key guard of the update *)

Section Guard.

Context {S : Storage}.
Variable StringToNumber : string -> option Z.
Variable model : Model.
Variable options : Options.
Variable req : Request.
Variables fields pk : value.

Hypothesis not_allowed : is_true (allowChangingPrimaryKey options) = false.
Hypothesis body_fields : get_prop (req_body req) (model_name model) = Ok fields.
Hypothesis body_pk : get_computed fields (primaryKeyField model) = Ok pk.

Lemma typeof_undefined (v : value) :
  String.eqb (typeof v) "undefined" = true <-> v = VUndefined.
Proof. destruct v; simpl; split; intros H; try reflexivity; discriminate. Qed.

Lemma guard_rejects :
  truthy (primaryKeyField model) = true ->
  pk <> VUndefined ->
  loose_eq StringToNumber (req_params_id req) pk = Ok false ->
  changes_primary_key StringToNumber model options req = Ok true.
Proof.
  intros Hpk Hdef Hne. unfold changes_primary_key.
  rewrite not_allowed, Hpk, body_fields, body_pk. simpl.
  destruct (String.eqb (typeof pk) "undefined") eqn:Ht.
  - apply typeof_undefined in Ht. contradiction.
  - simpl. now rewrite Hne.
Qed.

Lemma guard_passes :
  loose_eq StringToNumber (req_params_id req) pk = Ok true ->
  changes_primary_key StringToNumber model options req = Ok false.
Proof.
  intros Heq. unfold changes_primary_key.
  rewrite not_allowed, body_fields, body_pk. simpl.
  destruct (truthy (primaryKeyField model)); [| reflexivity].
  destruct (String.eqb (typeof pk) "undefined"); simpl; [reflexivity |].
  now rewrite Heq.
Qed.

End Guard.

(** What [==] held when it found the two sides equal. *)
Lemma loose_eq_true (StringToNumber : string -> option Z) (id : option string) (v : value) :
  loose_eq StringToNumber id v = Ok true ->
  match id, v with
  | None, _ => v = VUndefined \/ v = VNull
  | Some s, VBool b => StringToNumber s = Some (if b then 1 else 0)
  | Some s, VNum n => StringToNumber s = Some n
  | Some s, VStr t => s = t
  | Some s, (VArr _ | VObj _) => ToString v = Ok s
  | Some s, (VUndefined | VNull) => False
  end.
Proof.
  assert (Hnum : forall a n, number_eqb a n = true -> a = Some n).
  { intros [m |] n H; simpl in H; [| discriminate].
    apply Z.eqb_eq in H. now subst. }
  unfold loose_eq.
  destruct id as [s |], v as [| | b | n | t | elems | props]; intros H;
    try discriminate; try (now left); try (now right).
  - injection H as H. now apply Hnum.
  - injection H as H. now apply Hnum.
  - injection H as H. now apply String.eqb_eq.
  - destruct (ToString (VArr elems)) as [t | e]; [| discriminate].
    injection H as H. apply String.eqb_eq in H. now subst.
  - destruct (ToString (VObj props)) as [t | e]; [| discriminate].
    injection H as H. apply String.eqb_eq in H. now subst.
Qed.

Lemma put_catch_extends {S : Storage} (e : exn) : extends (Index.put_catch (S := S) e).
Proof. unfold Index.put_catch. extends_cases. Qed.

(** C1, amended. An update whose body carries a primary-key value that the
    guard's comparison [!=] finds different from the id of the path, while
    [allowChangingPrimaryKey] is not set and the model has a primary-key
    field, is answered 422 with nothing called on the storage layer: the
    call log is empty and the storage state is the one the request found.
    This holds for the [PUT] handler of index.js and for [updateRecord].
    The comparison has to come to a result for that: see
    [object_primary_key_is_not_answered]. *)
Theorem primary_key_change_rejected_before_storage
    (S : Storage) (StringToNumber : string -> option Z) (pluralize : value -> value)
    (handleRequestError : Request -> exn -> M S unit)
    (execHook : HOOK -> Options -> Model -> instance -> Result instance)
    (model : Model) (options : Options) (req : Request)
    (query : Query) (input fields pk : value) (db : DB S) :
  is_true (allowChangingPrimaryKey options) = false ->
  truthy (primaryKeyField model) = true ->
  get_prop (req_body req) (model_name model) = Ok fields ->
  get_computed fields (primaryKeyField model) = Ok pk ->
  pk <> VUndefined ->
  loose_eq StringToNumber (req_params_id req) pk = Ok false ->
  let rejected :=
    (Ok tt, {| w_db := db; w_calls := [];
               w_response := Some {| status := 422; json := primary_key_body model |} |}) in
  Index.put StringToNumber pluralize model options req (initial db) = rejected
  /\ Handlers.updateRecord StringToNumber pluralize handleRequestError execHook
       model query input req options (initial db) = rejected.
Proof.
  intros Hallow Hfield Hfields Hpk Hdef Hne rejected.
  pose proof (guard_rejects StringToNumber model options req fields pk
                Hallow Hfields Hpk Hfield Hdef Hne) as Hguard.
  split.
  - unfold Index.put, bind, lift. now rewrite Hguard.
  - unfold Handlers.updateRecord, bind, lift. now rewrite Hguard.
Qed.

Lemma primary_key_change_rejected_witness :
  let req := request (Some "1") [] (VObj [("post", VObj [("id", VNum 2)])]) in
  let db : DB MemoryStore.store := [[("id", VNum 1); ("title", VStr "One Title")]] in
  let query := fst (descriptor PUT {| env_req := req; env_options := defaults |}) in
  let rejected :=
    (Ok tt, {| w_db := db; w_calls := [];
               w_response := Some {| status := 422; json := primary_key_body post_model |} |}) in
  Index.put decimal_number plural_s post_model defaults req (initial db) = rejected
  /\ Handlers.updateRecord decimal_number plural_s
       (fun _ e => respond 500 (message_body e)) (fun _ _ _ r => Ok r)
       post_model query (VObj [("id", VNum 2)]) req defaults (initial db) = rejected.
Proof.
  intros req db query.
  apply (primary_key_change_rejected_before_storage
           MemoryStore.store decimal_number plural_s
           (fun _ e => respond 500 (message_body e)) (fun _ _ _ r => Ok r)
           post_model defaults req query
           (VObj [("id", VNum 2)]) (VObj [("id", VNum 2)]) (VNum 2) db).
  - reflexivity.
  - reflexivity.
  - reflexivity.
  - reflexivity.
  - discriminate.
  - reflexivity.
Defined.

(** C1, as stated, fails. [PUT /1] with the body
    [{post: {id: {toString: 1}}}]: the primary-key value of the body is an
    object, which is not the id of the path, the guard is on, and no 422 is
    sent. The comparison of line 232
    (line 78 of the handlers module) converts the object to a primitive,
    finds a [toString] that cannot be called and throws a [TypeError];
    the exception leaves the handler before a response or a storage call
    is made. *)
Lemma object_primary_key_is_not_answered :
  let pk := VObj [("toString", VNum 1)] in
  let req := request (Some "1") [] (VObj [("post", VObj [("id", pk)])]) in
  let db : DB MemoryStore.store := [[("id", VNum 1); ("title", VStr "One Title")]] in
  let query := fst (descriptor PUT {| env_req := req; env_options := defaults |}) in
  is_true (allowChangingPrimaryKey defaults) = false
  /\ truthy (primaryKeyField post_model) = true
  /\ get_prop (req_body req) (model_name post_model) = Ok (VObj [("id", pk)])
  /\ get_computed (VObj [("id", pk)]) (primaryKeyField post_model) = Ok pk
  /\ pk <> VUndefined
  /\ pk <> param_value (req_params_id req)
  /\ loose_eq decimal_number (req_params_id req) pk = Throw no_primitive
  /\ Index.put decimal_number plural_s post_model defaults req (initial db)
     = (Throw no_primitive, initial db)
  /\ Handlers.updateRecord decimal_number plural_s
       (fun _ e => respond 500 (message_body e)) (fun _ _ _ r => Ok r)
       post_model query (VObj [("id", pk)]) req defaults (initial db)
     = (Throw no_primitive, initial db)
  /\ w_response (initial db) = None.
Proof.
  intros pk req db query.
  repeat (split; [first [reflexivity | discriminate] |]). reflexivity.
Qed.

Lemma put_chain_opens {S : Storage} (pluralize : value -> value) (model : Model)
    (options : Options) (query : Query) (req : Request) (k : option instance -> M S instance)
    (k' : instance -> M S unit) :
  (forall r, extends (k r)) -> (forall r, extends (k' r)) ->
  opens_with (CallFindOne query)
    (catch (bind (bind (findOne_call query) k) k') Index.put_catch).
Proof.
  intros Hk Hk'. apply opens_catch; [| apply put_catch_extends].
  apply opens_bind; [| exact Hk']. apply opens_bind; [| exact Hk].
  apply opens_storage_call.
Qed.

(** C10. The guard of the update compares with [==]: a primary-key value in
    the body that is loosely equal to the id of the path, whatever its type
    (the number 1 against the path string "1"), is not rejected, and the
    update goes on to the storage layer, where [findOne] is its first call.
    For the [PUT] handler of index.js the query is the one [buildWhere]
    returns; for [updateRecord] it is the one it is given, the rejection
    handler it is built with making no change to the log. Loosely equal
    is: a number or a boolean that is the numeric value of the id, a string
    that is the id, an array or an object whose text is the id, [null] or
    [undefined] when the path has no id; a value whose conversion throws is
    equal to nothing. *)
Theorem loosely_equal_primary_key_passes
    (S : Storage) (StringToNumber : string -> option Z) (pluralize : value -> value)
    (handleRequestError : Request -> exn -> M S unit)
    (execHook : HOOK -> Options -> Model -> instance -> Result instance)
    (model : Model) (options : Options) (req : Request)
    (query built : Query) (env : Env) (input fields pk : value) (db : DB S) :
  is_true (allowChangingPrimaryKey options) = false ->
  get_prop (req_body req) (model_name model) = Ok fields ->
  get_computed fields (primaryKeyField model) = Ok pk ->
  loose_eq StringToNumber (req_params_id req) pk = Ok true ->
  buildWhere PUT {| env_req := req; env_options := options |} = Ok (built, env) ->
  (forall r e, extends (handleRequestError r e)) ->
  changes_primary_key StringToNumber model options req = Ok false
  /\ (exists l,
        w_calls (snd (Index.put StringToNumber pluralize model options req (initial db)))
        = CallFindOne built :: l)
  /\ (exists l,
        w_calls (snd (Handlers.updateRecord StringToNumber pluralize handleRequestError
                        execHook model query input req options (initial db)))
        = CallFindOne query :: l)
  /\ match req_params_id req, pk with
     | None, _ => pk = VUndefined \/ pk = VNull
     | Some s, VBool b => StringToNumber s = Some (if b then 1 else 0)
     | Some s, VNum n => StringToNumber s = Some n
     | Some s, VStr t => s = t
     | Some s, (VArr _ | VObj _) => ToString pk = Ok s
     | Some s, (VUndefined | VNull) => False
     end.
Proof.
  intros Hallow Hfields Hpk Heq Hbuilt Hhandler.
  pose proof (guard_passes StringToNumber model options req fields pk
                Hallow Hfields Hpk Heq) as Hguard.
  split; [exact Hguard |]. split; [| split].
  - unfold Index.put, Index.build. unfold bind at 1. unfold lift at 1.
    rewrite Hguard. unfold bind at 1. rewrite Hbuilt. unfold ret at 1.
    apply opens_initial.
    apply (put_chain_opens pluralize model options built (env_req env));
      extends_cases.
  - unfold Handlers.updateRecord. unfold bind at 1. unfold lift at 1.
    rewrite Hguard.
    apply opens_initial.
    apply opens_catch; [| apply Hhandler].
    apply opens_bind; [apply opens_bind; [apply opens_storage_call |] |];
      extends_cases.
  - now apply loose_eq_true.
Qed.

Lemma loosely_equal_primary_key_witness :
  let req := request (Some "1") [] (VObj [("post", VObj [("id", VNum 1); ("title", VStr "Updated Title")])]) in
  let env := {| env_req := req; env_options := defaults |} in
  let db : DB MemoryStore.store := [[("id", VNum 1); ("title", VStr "One Title")]] in
  let query := fst (descriptor PUT {| env_req := req; env_options := defaults |}) in
  let input := VObj [("id", VNum 1); ("title", VStr "Updated Title")] in
  changes_primary_key decimal_number post_model defaults req = Ok false
  /\ (exists l,
        w_calls (snd (Index.put decimal_number plural_s post_model defaults req (initial db)))
        = CallFindOne query :: l)
  /\ (exists l,
        w_calls (snd (Handlers.updateRecord decimal_number plural_s
                        (fun _ e => respond 500 (message_body e)) (fun _ _ _ r => Ok r)
                        post_model query input req defaults (initial db)))
        = CallFindOne query :: l)
  /\ decimal_number "1" = Some 1.
Proof.
  intros req env db query input.
  apply (loosely_equal_primary_key_passes
           MemoryStore.store decimal_number plural_s
           (fun _ e => respond 500 (message_body e)) (fun _ _ _ r => Ok r)
           post_model defaults req query query env input input (VNum 1) db).
  - reflexivity.
  - reflexivity.
  - reflexivity.
  - reflexivity.
  - reflexivity.
  - intros r e. apply extends_respond.
Defined.

(** ** Absent records *)

(** C4. A get-one request for which [findOne] finds no record is answered
    404 with a body whose [errors] array holds one entry, the message of
    [errors.notFound]. This is the inline handler of index.js; [findOne] of
    the handlers module throws the same [errors.notFound] and leaves the
    response to [handleRequestError]. *)
Theorem get_one_absent_is_404
    (S : Storage) (pluralize : value -> value)
    (handleRequestError : Request -> exn -> M S unit)
    (model : Model) (options : Options) (req : Request)
    (built : Query) (env : Env) (db db' : DB S) :
  buildWhere GET {| env_req := req; env_options := options |} = Ok (built, env) ->
  model_findOne S built db = (Ok None, db') ->
  let after := {| w_db := db'; w_calls := [CallFindOne built]; w_response := None |} in
  Index.get_one pluralize model options req (initial db)
  = (Ok tt, {| w_db := db'; w_calls := [CallFindOne built];
               w_response :=
                 Some {| status := 404;
                         json := VObj [("errors",
                                        VArr [VObj [("message", VStr "record not found")]])] |} |})
  /\ (exists r x l,
        w_response (snd (Index.get_one pluralize model options req (initial db))) = Some r
        /\ status r = 404 /\ own_prop (json r) "errors" = VArr (x :: l))
  /\ Handlers.findOne pluralize handleRequestError model built req options (initial db)
     = handleRequestError req errors_notFound after.
Proof.
  intros Hbuilt Hfind after.
  assert (Hrun : Index.get_one pluralize model options req (initial db)
                 = (Ok tt, {| w_db := db'; w_calls := [CallFindOne built];
                              w_response :=
                                Some {| status := 404; json := message_body errors_notFound |} |})).
  { unfold Index.get_one, Index.build, bind at 1. rewrite Hbuilt.
    unfold ret at 1, catch, bind, findOne_call, storage_call, initial. simpl.
    rewrite Hfind. reflexivity. }
  split; [exact Hrun |]. split.
  - rewrite Hrun. simpl. eexists _, _, _. repeat split; reflexivity.
  - unfold Handlers.findOne, catch, bind, findOne_call, storage_call, initial. simpl.
    rewrite Hfind. reflexivity.
Qed.

Lemma get_one_absent_witness :
  let req := request (Some "7") [] VUndefined in
  let env := {| env_req := req; env_options := defaults |} in
  let built := fst (descriptor GET env) in
  let db : DB MemoryStore.store := [[("id", VNum 1); ("title", VStr "One Title")]] in
  let handle : Request -> exn -> M MemoryStore.store unit :=
    fun _ e => respond 500 (message_body e) in
  let after : World MemoryStore.store :=
    {| w_db := db; w_calls := [CallFindOne built]; w_response := None |} in
  Index.get_one plural_s post_model defaults req (initial db)
  = (Ok tt, {| w_db := db; w_calls := [CallFindOne built];
               w_response :=
                 Some {| status := 404;
                         json := VObj [("errors",
                                        VArr [VObj [("message", VStr "record not found")]])] |} |})
  /\ (exists r x l,
        w_response (snd (Index.get_one plural_s post_model defaults req (initial db))) = Some r
        /\ status r = 404 /\ own_prop (json r) "errors" = VArr (x :: l))
  /\ Handlers.findOne plural_s handle post_model built req defaults (initial db)
     = handle req errors_notFound after.
Proof.
  intros req env built db handle after.
  apply (get_one_absent_is_404 MemoryStore.store plural_s handle post_model defaults
           req built env db db).
  - reflexivity.
  - reflexivity.
Defined.

(** ** Validation and unique-constraint errors *)






(** ** Created records *)

Lemma element_texts_throws (text : value -> Result string) (l : list value) (e : exn) :
  (forall v x, In v l -> text v = Throw x -> x = no_primitive) ->
  element_texts text l = Throw e -> e = no_primitive.
Proof.
  induction l as [| v r IH]; intros Htext; simpl; [discriminate |].
  assert (Hr : forall v' x, In v' r -> text v' = Throw x -> x = no_primitive)
    by (intros v' x Hin; apply Htext; now right).
  destruct (match v with VUndefined | VNull => Ok "" | _ => text v end) as [s | x] eqn:Hv.
  - destruct (element_texts text r) as [ss | x] eqn:Hrest; [discriminate |].
    intros H. injection H as <-. now apply IH.
  - intros H. injection H as <-.
    destruct v; try discriminate; apply (Htext _ x (or_introl eq_refl) Hv).
Qed.

(** The one exception a conversion to a string throws. *)
Lemma ToString_throws : forall (v : value) (e : exn), ToString v = Throw e -> e = no_primitive.
Proof.
  fix IH 1. intros v e.
  destruct v as [| | [|] | n | s | elems | props]; simpl; try discriminate.
  - destruct (element_texts ToString elems) as [parts | x] eqn:Hparts; [discriminate |].
    intros H. injection H as <-.
    apply (element_texts_throws ToString elems); [| exact Hparts].
    clear Hparts. induction elems as [| v r IHr]; intros v' x' Hin; [destruct Hin |].
    destruct Hin as [<- | Hin]; [apply IH | now apply IHr].
  - destruct (assoc "toString" props); [| discriminate].
    intros H. now injection H as <-.
Qed.

Lemma formatOutput_single (pluralize : value -> value) (results : value)
    (model : Model) (options : Options) :
  Array_isArray results = false ->
  formatOutput pluralize results model options
  = assign_key (output_name model options) results.
Proof.
  intros Hsingle. unfold formatOutput, output_name. rewrite Hsingle.
  destruct (truthy (overrideOutputName options)); reflexivity.
Qed.

(** An accepted create, in index.js: the envelope is the one of the claim,
    the status is 200; a name that has no text, which only an
    [overrideOutputName] can be, makes the assignment of the envelope throw
    inside the chain, and the answer is 500. *)
Lemma post_accepted_is_200
    (S : Storage) (pluralize : value -> value) (model : Model) (options : Options)
    (req : Request) (input : value) (built : Query) (env : Env) (db db1 : DB S)
    (created created' : instance) :
  get_prop (req_body req) (model_name model) = Ok input ->
  buildWhere POST {| env_req := req; env_options := options |} = Ok (built, env) ->
  model_create S input built db = (Ok created, db1) ->
  call_hook (hook_of options afterCreate) created = Ok created' ->
  Index.post pluralize model options req (initial db)
  = (Ok tt, {| w_db := db1; w_calls := [CallCreate input built];
               w_response :=
                 Some (match ToString (output_name model options) with
                       | Ok key => {| status := 200; json := VObj [(key, VObj created')] |}
                       | Throw e => {| status := 500; json := message_body e |}
                       end) |}).
Proof.
  intros Hinput Hbuilt Hcreate Hhook.
  unfold Index.post, Index.build, bind at 1, lift at 1. rewrite Hinput.
  unfold bind at 1. rewrite Hbuilt.
  unfold ret at 1, catch, bind, create_call, storage_call, lift, initial. simpl.
  rewrite Hcreate, Hhook. simpl.
  rewrite formatOutput_single by reflexivity. unfold assign_key.
  destruct (ToString (output_name model options)) as [key | e] eqn:Hkey; simpl.
  - reflexivity.
  - apply ToString_throws in Hkey. subst e. reflexivity.
Qed.

(** An accepted create, in the handlers module: same envelope, status 201;
    the exception of a name that has no text goes to the rejection
    handler. *)
Lemma createRecord_accepted_is_201
    (S : Storage) (pluralize : value -> value)
    (handleRequestError : Request -> exn -> M S unit)
    (execHook : HOOK -> Options -> Model -> instance -> Result instance)
    (model : Model) (options : Options)
    (req : Request) (input : value) (query : Query) (db db1 : DB S)
    (created created' : instance) :
  model_create S input query db = (Ok created, db1) ->
  execHook AFTER_CREATE options model created = Ok created' ->
  let after := {| w_db := db1; w_calls := [CallCreate input query]; w_response := None |} in
  Handlers.createRecord pluralize handleRequestError execHook model query input req options
    (initial db)
  = match ToString (output_name model options) with
    | Ok key =>
        (Ok tt, {| w_db := db1; w_calls := [CallCreate input query];
                   w_response :=
                     Some {| status := 201; json := VObj [(key, VObj created')] |} |})
    | Throw e => handleRequestError req e after
    end.
Proof.
  intros Hcreate Hhook after.
  unfold Handlers.createRecord, catch, bind, create_call, storage_call, lift, initial.
  simpl. rewrite Hcreate, Hhook. simpl.
  rewrite formatOutput_single by reflexivity. unfold assign_key.
  destruct (ToString (output_name model options)) as [key | e]; reflexivity.
Qed.

(** C2. [POST /] with the body [{post: {title: "X"}}] on an empty table:
    the storage layer accepts the record and both implementations answer
    with the envelope [{post: record}], but the create handler of index.js
    sends it with status 200 where [createRecord] sends 201. *)
Theorem create_status_in_index_is_200 :
  let req := request None [] (VObj [("post", VObj [("title", VStr "X")])]) in
  let input := VObj [("title", VStr "X")] in
  let query := fst (descriptor POST {| env_req := req; env_options := defaults |}) in
  let db : DB MemoryStore.store := [] in
  let envelope := VObj [("post", VObj [("title", VStr "X")])] in
  buildWhere POST {| env_req := req; env_options := defaults |}
  = Ok (query, {| env_req := req; env_options := defaults |})
  /\ model_create MemoryStore.store input query db = (Ok [("title", VStr "X")], [[("title", VStr "X")]])
  /\ w_response (snd (Index.post plural_s post_model defaults req (initial db)))
     = Some {| status := 200; json := envelope |}
  /\ w_response (snd (Handlers.createRecord plural_s
                        (fun _ e => respond 500 (message_body e)) (fun _ _ _ r => Ok r)
                        post_model query input req defaults (initial db)))
     = Some {| status := 201; json := envelope |}.
Proof.
  intros req input query db envelope. split; [reflexivity |]. split; [reflexivity |]. split.
  - rewrite (post_accepted_is_200 MemoryStore.store plural_s post_model defaults req
               input query {| env_req := req; env_options := defaults |} db
               [[("title", VStr "X")]] [("title", VStr "X")] [("title", VStr "X")]);
      reflexivity.
  - rewrite (createRecord_accepted_is_201 MemoryStore.store plural_s
               (fun _ e => respond 500 (message_body e)) (fun _ _ _ r => Ok r)
               post_model defaults req input query db
               [[("title", VStr "X")]] [("title", VStr "X")] [("title", VStr "X")]);
      reflexivity.
Qed.

(** ** Deleted records *)

Lemma delete_in_index
    (S : Storage) (options : Options) (req : Request)
    (built : Query) (env : Env) (db db' : DB S) (n : Z) :
  buildWhere DELETE {| env_req := req; env_options := options |} = Ok (built, env) ->
  model_destroy S built db = (Ok n, db') ->
  Index.delete options req (initial db)
  = (Ok tt, {| w_db := db'; w_calls := [CallDestroy built];
               w_response :=
                 Some (if n =? 1
                       then {| status := 200; json := VObj [("status", VStr "ok")] |}
                       else {| status := 404;
                               json := VObj [("errors",
                                              VArr [VObj [("message", VStr "record not found")]])] |}) |}).
Proof.
  intros Hbuilt Hdestroy.
  unfold Index.delete, Index.build, bind at 1. rewrite Hbuilt.
  unfold ret at 1, catch, bind, destroy_call, storage_call, initial. simpl.
  rewrite Hdestroy. destruct (n =? 1); reflexivity.
Qed.

Lemma deleteRecord_acknowledges
    (S : Storage) (handleRequestError : Request -> exn -> M S unit)
    (model : Model) (query : Query) (req : Request) (db db' : DB S) (n : Z) :
  model_destroy S query db = (Ok n, db') ->
  Handlers.deleteRecord handleRequestError model query req (initial db)
  = (Ok tt, {| w_db := db'; w_calls := [CallDestroy query];
               w_response := Some {| status := 200; json := VObj [("status", VStr "ok")] |} |}).
Proof.
  intros Hdestroy.
  unfold Handlers.deleteRecord, catch, bind, destroy_call, storage_call, initial. simpl.
  now rewrite Hdestroy.
Qed.

(** C3, as stated, fails on index.js. [DELETE /1] issued twice on a table
    holding record 1: [destroy] succeeds both times, affecting one row and
    then none; the inline handler answers 200 to the first request and 404
    to the second. *)
Lemma delete_twice_in_index_is_404 :
  let req := request (Some "1") [] VUndefined in
  let query := fst (descriptor DELETE {| env_req := req; env_options := defaults |}) in
  let db : DB MemoryStore.store := [[("id", VNum 1); ("title", VStr "One Title")]] in
  let first := Index.delete defaults req (initial db) in
  let second := Index.delete defaults req (initial (w_db (snd first))) in
  model_destroy MemoryStore.store query db = (Ok 1, [])
  /\ model_destroy MemoryStore.store query [] = (Ok 0, [])
  /\ w_response (snd first) = Some {| status := 200; json := VObj [("status", VStr "ok")] |}
  /\ w_response (snd second)
     = Some {| status := 404;
               json := VObj [("errors", VArr [VObj [("message", VStr "record not found")]])] |}
  /\ ~ delete_acknowledged (S := MemoryStore.store) (Index.delete defaults req) query.
Proof.
  intros req query db first second.
  assert (Hfirst : first = (Ok tt, {| w_db := ([] : DB MemoryStore.store);
                                      w_calls := [CallDestroy query];
                                      w_response := Some {| status := 200;
                                                            json := VObj [("status", VStr "ok")] |} |})).
  { unfold first.
    rewrite (delete_in_index MemoryStore.store defaults req query
               {| env_req := req; env_options := defaults |} db [] 1); reflexivity. }
  assert (Hsecond : Index.delete defaults req (initial (S := MemoryStore.store) [])
                    = (Ok tt, {| w_db := ([] : DB MemoryStore.store);
                                 w_calls := [CallDestroy query];
                                 w_response :=
                                   Some {| status := 404;
                                           json := message_body errors_notFound |} |})).
  { rewrite (delete_in_index MemoryStore.store defaults req query
               {| env_req := req; env_options := defaults |} [] [] 0); reflexivity. }
  split; [reflexivity |]. split; [reflexivity |]. split; [now rewrite Hfirst |]. split.
  - unfold second. rewrite Hfirst. cbn [snd w_db]. now rewrite Hsecond.
  - intros Hclaim. specialize (Hclaim [] 0 [] eq_refl).
    rewrite Hsecond in Hclaim. discriminate Hclaim.
Qed.

(** C3, amended. When [destroy] succeeds, [deleteRecord] of the handlers
    module answers 200 with [{status: 'ok'}] whatever the number of
    affected rows, so the same request issued twice is answered 200 both
    times; the inline handler of index.js answers 200 only when exactly one
    row was affected, and 404 with the message of [errors.notFound]
    otherwise. *)
Theorem delete_acknowledgement
    (S : Storage) (handleRequestError : Request -> exn -> M S unit)
    (model : Model) (options : Options) (req : Request)
    (built : Query) (env : Env) (db db1 db2 : DB S) (n1 n2 : Z) :
  buildWhere DELETE {| env_req := req; env_options := options |} = Ok (built, env) ->
  model_destroy S built db = (Ok n1, db1) ->
  model_destroy S built db1 = (Ok n2, db2) ->
  let ok := {| status := 200; json := VObj [("status", VStr "ok")] |} in
  let not_found :=
    {| status := 404;
       json := VObj [("errors", VArr [VObj [("message", VStr "record not found")]])] |} in
  delete_acknowledged (Handlers.deleteRecord handleRequestError model built req) built
  /\ Handlers.deleteRecord handleRequestError model built req (initial db)
     = (Ok tt, {| w_db := db1; w_calls := [CallDestroy built]; w_response := Some ok |})
  /\ Handlers.deleteRecord handleRequestError model built req (initial db1)
     = (Ok tt, {| w_db := db2; w_calls := [CallDestroy built]; w_response := Some ok |})
  /\ Index.delete options req (initial db)
     = (Ok tt, {| w_db := db1; w_calls := [CallDestroy built];
                  w_response := Some (if n1 =? 1 then ok else not_found) |}).
Proof.
  intros Hbuilt Hfirst Hsecond ok not_found.
  split; [| split; [| split]].
  - intros d n d' Hdestroy.
    now rewrite (deleteRecord_acknowledges S handleRequestError model built req d d' n).
  - now apply deleteRecord_acknowledges with (n := n1).
  - now apply deleteRecord_acknowledges with (n := n2).
  - now apply delete_in_index with (env := env).
Qed.

Lemma delete_acknowledgement_witness :
  let req := request (Some "1") [] VUndefined in
  let env := {| env_req := req; env_options := defaults |} in
  let built := fst (descriptor DELETE env) in
  let db : DB MemoryStore.store := [[("id", VNum 1); ("title", VStr "One Title")]] in
  let handle : Request -> exn -> M MemoryStore.store unit :=
    fun _ e => respond 500 (message_body e) in
  let ok := {| status := 200; json := VObj [("status", VStr "ok")] |} in
  let not_found :=
    {| status := 404;
       json := VObj [("errors", VArr [VObj [("message", VStr "record not found")]])] |} in
  delete_acknowledged (Handlers.deleteRecord handle post_model built req) built
  /\ Handlers.deleteRecord handle post_model built req (initial db)
     = (Ok tt, {| w_db := ([] : DB MemoryStore.store);
                  w_calls := [CallDestroy built]; w_response := Some ok |})
  /\ Handlers.deleteRecord handle post_model built req (initial (S := MemoryStore.store) [])
     = (Ok tt, {| w_db := ([] : DB MemoryStore.store);
                  w_calls := [CallDestroy built]; w_response := Some ok |})
  /\ Index.delete defaults req (initial db)
     = (Ok tt, {| w_db := ([] : DB MemoryStore.store); w_calls := [CallDestroy built];
                  w_response := Some (if 1 =? 1 then ok else not_found) |}).
Proof.
  intros req env built db handle ok not_found.
  apply (delete_acknowledgement MemoryStore.store handle post_model defaults req
           built env db [] [] 1 0).
  - reflexivity.
  - reflexivity.
  - reflexivity.
Defined.

(** ** The query builder *)

Lemma with_req_same (env : Env) : with_req (env_req env) env = env.
Proof. now destruct env. Qed.

Lemma obj_get_set (k : string) (v : value) (o : obj) : obj_get (obj_set k v o) k = v.
Proof.
  unfold obj_get. induction o as [| [k' v'] o IH]; simpl.
  - now rewrite String.eqb_refl.
  - destruct (String.eqb k k') eqn:Hk; simpl.
    + now rewrite String.eqb_refl.
    + now rewrite Hk.
Qed.

Lemma assign_all_untouched (g : string -> value) (keys : list string)
    (m : gmap string value) (field : string) :
  ~ In field keys -> assign_all g keys m !! field = m !! field.
Proof.
  unfold assign_all. revert m.
  induction keys as [| k keys IH]; intros m Hnot; [reflexivity |].
  simpl. rewrite IH by (intros Hin; apply Hnot; now right).
  apply lookup_insert_ne. intros ->. apply Hnot. now left.
Qed.

(** After [keys.forEach(f => where[f] = g(f))], every key [f] holds
    [g(f)]: a later assignment to the same key writes the same value. *)
Lemma assign_all_assigned (g : string -> value) (keys : list string)
    (m : gmap string value) (field : string) :
  In field keys -> assign_all g keys m !! field = Some (g field).
Proof.
  unfold assign_all. revert m.
  induction keys as [| k keys IH]; intros m Hin; [destruct Hin |].
  simpl. destruct (in_dec string_dec field keys) as [Hlater | Hnot].
  - now apply IH.
  - destruct Hin as [-> | Hin]; [| contradiction].
    pose proof (assign_all_untouched g keys (<[field := g field]> m) field Hnot) as Hsame.
    unfold assign_all in Hsame. rewrite Hsame. apply lookup_insert_eq.
Qed.

Lemma fold_set_where_assign (g : string -> value) (keys : list string) (q : Query) :
  q_where (fold_left (fun q f => set_where f (g f) q) keys q)
  = assign_all g keys (q_where q).
Proof.
  unfold assign_all. revert q.
  induction keys as [| k keys IH]; intros q; [reflexivity |].
  simpl. now rewrite IH.
Qed.

(** A field of the descriptor that [set_where] leaves alone is left alone
    by a whole [forEach] of assignments to [where]. *)
Lemma fold_set_where_frame {A} (proj : Query -> A) (g : string -> value)
    (keys : list string) (q : Query) :
  (forall k v q', proj (set_where k v q') = proj q') ->
  proj (fold_left (fun q f => set_where f (g f) q) keys q) = proj q.
Proof.
  intros Hframe. revert q.
  induction keys as [| k keys IH]; intros q; [reflexivity |].
  simpl. now rewrite IH, Hframe.
Qed.

Lemma path_where_lookup (req : Request) (field : string) :
  path_where req !! field
  = if String.eqb field "id" && truthy (param_value (req_params_id req))
    then Some (param_value (req_params_id req))
    else None.
Proof.
  unfold path_where.
  destruct (truthy (param_value (req_params_id req)));
    destruct (String.eqb_spec field "id") as [-> | Hne]; simpl.
  - apply lookup_insert_eq.
  - rewrite lookup_insert_ne by congruence. apply lookup_empty.
  - apply lookup_empty.
  - apply lookup_empty.
Qed.


(** A condition that is returned is the pattern of the text of the
    value. *)
Lemma search_condition_returned (options : Options) (v c : value) :
  search_condition options v = Ok c ->
  ToString v = Ok (text_of v) /\ c = condition_of options v.
Proof.
  unfold search_condition, condition_of, text_of.
  destruct (ToString v) as [text | e]; [| discriminate].
  intros [= <-]. now split.
Qed.

(** A search loop that returns has converted every value and made every
    assignment. *)
Lemma assign_searches_returned (options : Options) (search : value)
    (fields : list string) (q q1 : Query) :
  assign_searches options search fields q = Ok q1 ->
  q1 = fold_left (fun q f => set_where f (condition_of options (own_prop search f)) q)
         fields q
  /\ forall f, In f fields -> ToString (own_prop search f) = Ok (text_of (own_prop search f)).
Proof.
  revert q. induction fields as [| field rest IH]; intros q; simpl.
  - intros [= <-]. split; [reflexivity | intros f []].
  - destruct (search_condition options (own_prop search field)) as [c | e] eqn:Hc;
      [| discriminate].
    apply search_condition_returned in Hc as [Htext ->].
    intros Hrest. apply IH in Hrest as [-> Htexts].
    split; [reflexivity |]. intros f [<- | Hin]; [exact Htext | now apply Htexts].
Qed.


(** The search loop throws what the first conversion that fails throws. *)
Lemma assign_searches_throws (options : Options) (search : value)
    (fields : list string) (q : Query) (e : exn) :
  assign_searches options search fields q = Throw e ->
  exists f, In f fields /\ ToString (own_prop search f) = Throw e.
Proof.
  revert q. induction fields as [| field rest IH]; intros q; simpl; [discriminate |].
  unfold search_condition.
  destruct (ToString (own_prop search field)) as [text | x] eqn:Htext.
  - intros Hrest. apply IH in Hrest as (f & Hin & Hf). exists f. split; [now right | exact Hf].
  - intros [= <-]. exists field. split; [now left | exact Htext].
Qed.

Lemma searched_returned (options : Options) (search : value) (q0 q1 : Query) :
  (if truthy search
   then assign_searches options search (Object_keys search) q0
   else Ok q0) = Ok q1 ->
  q1 = fold_left (fun q f => set_where f (condition_of options (own_prop search f)) q)
         (if truthy search then Object_keys search else []) q0
  /\ forall f, In f (if truthy search then Object_keys search else []) ->
       ToString (own_prop search f) = Ok (text_of (own_prop search f)).
Proof.
  destruct (truthy search).
  - apply assign_searches_returned.
  - intros [= <-]. split; [reflexivity | intros f []].
Qed.

(** The descriptor of a [GET], when the query builder returns it: the
    [where] clause holds the path identifier, then the filters, then the
    searches, each assignment overwriting what was there; every searched
    value has been converted. *)
Lemma descriptor_GET_returned (env : Env) (q : Query) (env' : Env) :
  let req := env_req env in
  let options := env_options env in
  let search := obj_get (req_query req) "search" in
  let a := obj_get (req_query req) "attributes" in
  buildWhere_descriptor GET env = Ok (q, env') ->
  q_where q
  = assign_all (fun f => condition_of options (own_prop search f)) (search_keys req)
      (assign_all (fun f => own_prop (obj_get (req_query req) "filter") f)
         (filter_keys req) (path_where req))
  /\ q_limit q = (if truthy (obj_get (req_query req) "limit")
                  then obj_get (req_query req) "limit"
                  else if truthy (opt_limit options) then opt_limit options else VUndefined)
  /\ q_offset q = (if truthy (obj_get (req_query req) "offset")
                   then obj_get (req_query req) "offset"
                   else VUndefined)
  /\ q_include q = Some (relationships options)
  /\ q_returning q = None
  /\ q_attributes q
     = (if truthy a
        then Some (obj_get (req_query (split_attributes req)) "attributes")
        else None)
  /\ env' = (if truthy a then with_req (split_attributes req) env else env)
  /\ (forall f, In f (search_keys req) ->
        ToString (own_prop search f) = Ok (text_of (own_prop search f))).
Proof.
  intros req options search a.
  unfold buildWhere_descriptor, filter_keys, search_keys, path_where.
  fold req options. cbn [Method_eqb]. fold search a.
  match goal with
  | |- match ?c with Ok _ => _ | Throw _ => _ end = _ -> _ =>
      destruct c as [q1 | e] eqn:Hsearched; [| discriminate]
  end.
  apply searched_returned in Hsearched as [-> Htexts].
  intros Hreturned.
  repeat split; try exact Htexts;
    destruct (truthy a); injection Hreturned as <- <-;
    cbn [q_where q_limit q_offset q_include q_returning q_attributes set_attributes];
    rewrite ?fold_set_where_assign,
      ?(fold_set_where_frame q_limit), ?(fold_set_where_frame q_offset),
      ?(fold_set_where_frame q_include), ?(fold_set_where_frame q_returning),
      ?(fold_set_where_frame q_attributes)
      by (intros; reflexivity);
    repeat match goal with
           | |- context [if ?b then _ else _] => destruct b
           end;
    cbn [q_where q_limit q_offset q_include q_returning q_attributes
           set_attributes set_offset set_limit set_where];
    rewrite ?fold_set_where_assign,
      ?(fold_set_where_frame q_limit), ?(fold_set_where_frame q_offset),
      ?(fold_set_where_frame q_include), ?(fold_set_where_frame q_returning),
      ?(fold_set_where_frame q_attributes)
      by (intros; reflexivity);
    reflexivity.
Qed.


(** What the query builder throws is the exception of a searched value
    that has no text. *)
Lemma descriptor_throws (method : Method) (env : Env) (e : exn) :
  let req := env_req env in
  let search := obj_get (req_query req) "search" in
  buildWhere_descriptor method env = Throw e ->
  method = GET
  /\ exists f, In f (search_keys req) /\ ToString (own_prop search f) = Throw e.
Proof.
  intros req search.
  unfold buildWhere_descriptor, search_keys. fold req.
  destruct method; cbn [Method_eqb]; try discriminate.
  fold search.
  match goal with
  | |- match ?c with Ok _ => _ | Throw _ => _ end = _ -> _ =>
      destruct c as [q1 | x] eqn:Hsearched
  end.
  - destruct (truthy (obj_get (req_query req) "attributes")); discriminate.
  - intros [= <-]. split; [reflexivity |].
    destruct (truthy search); [| discriminate].
    now apply assign_searches_throws in Hsearched.
Qed.

(** The descriptor of the other methods. *)
Lemma descriptor_of_write (method : Method) (env : Env) :
  method <> GET ->
  buildWhere_descriptor method env
  = Ok ({| q_where := path_where (env_req env);
           q_include := Some (relationships (env_options env));
           q_limit := if Method_eqb method DELETE then VNum 1 else VUndefined;
           q_offset := VUndefined;
           q_returning := if Method_eqb method POST then Some (VBool true) else None;
           q_attributes := None |}, env).
Proof.
  intros Hmethod. unfold buildWhere_descriptor, path_where.
  destruct method; try contradiction; cbn [Method_eqb];
    destruct (truthy (param_value (req_params_id (env_req env)))); reflexivity.
Qed.

(** The request and the configuration as the query builder leaves them,
    up to the hook. *)
Lemma descriptor_env (method : Method) (env : Env) (q : Query) (env' : Env) :
  buildWhere_descriptor method env = Ok (q, env') ->
  env' = if Method_eqb method GET && truthy (obj_get (req_query (env_req env)) "attributes")
         then with_req (split_attributes (env_req env)) env
         else env.
Proof.
  intros Hreturned. destruct (Method_eqb method GET) eqn:Hmethod.
  - destruct method; try discriminate Hmethod.
    now apply descriptor_GET_returned in Hreturned as (_ & _ & _ & _ & _ & _ & -> & _).
  - rewrite descriptor_of_write in Hreturned by (intros ->; discriminate Hmethod).
    now injection Hreturned as _ <-.
Qed.

(** Without a [beforeQuery] callback, [buildWhere] returns the descriptor
    as lines 22-81 leave it, and throws what they throw. *)
Lemma buildWhere_without_hook (method : Method) (env : Env) :
  no_beforeQuery (env_options env) ->
  buildWhere method env = buildWhere_descriptor method env.
Proof.
  intros Hnone. unfold buildWhere.
  destruct (buildWhere_descriptor method env) as [[q env'] | e] eqn:Hd; [| reflexivity].
  assert (Hopts : env_options env' = env_options env).
  { rewrite (descriptor_env method env q env' Hd).
    now destruct (Method_eqb method GET && _). }
  unfold call_beforeQuery. rewrite Hopts. unfold no_beforeQuery in Hnone.
  destruct (hooks (env_options env)) as [h |].
  - rewrite Hnone. now rewrite with_req_same.
  - now rewrite with_req_same.
Qed.




(** C7, as stated, fails. [GET /?attributes[]=id&attributes[]=name] makes
    [req.query.attributes] an array, which has no [split]: the exception is
    swallowed and the array itself becomes the projection of the
    descriptor. *)
Lemma malformed_attributes_are_kept :
  let req := request None [("attributes", VArr [VStr "id"; VStr "name"])] VUndefined in
  let env := {| env_req := req; env_options := defaults |} in
  (exists q env', buildWhere GET env = Ok (q, env')
                  /\ q_attributes q = Some (VArr [VStr "id"; VStr "name"]))
  /\ ~ malformed_attributes_dropped env.
Proof.
  intros req env.
  assert (Hrun : buildWhere GET env = Ok (descriptor GET env)) by reflexivity.
  split.
  - exists (fst (descriptor GET env)), (snd (descriptor GET env)).
    split; [exact Hrun | reflexivity].
  - intros Hclaim.
    specialize (Hclaim (fst (descriptor GET env))
                  (snd (descriptor GET env)) Hrun).
    assert (Hnone : q_attributes (fst (descriptor GET env)) = None).
    { apply Hclaim. intros s. discriminate. }
    discriminate Hnone.
Qed.

(** C7, amended. On a [GET] whose [attributes] parameter is truthy, a
    string is split at its commas and the list of names becomes the
    [attributes] of the descriptor; a value that cannot be split raises
    nothing and becomes the [attributes] of the descriptor as it is. A
    missing or empty parameter leaves the descriptor without [attributes].
    The descriptor is the one the query builder hands to the [beforeQuery]
    callback, and returns when there is no such callback. *)
Theorem attributes_projection (env : Env) (a : value) (q : Query) (env' : Env) :
  obj_get (req_query (env_req env)) "attributes" = a ->
  buildWhere_descriptor GET env = Ok (q, env') ->
  (forall s, a = VStr s -> s <> "" ->
     q_attributes q = Some (VArr (map VStr (split_comma s))))
  /\ ((forall s, a <> VStr s) -> truthy a = true -> q_attributes q = Some a)
  /\ (truthy a = false -> q_attributes q = None)
  /\ (no_beforeQuery (env_options env) -> buildWhere GET env = Ok (q, env')).
Proof.
  intros Ha Hreturned.
  assert (Hq : q_attributes q
               = if truthy a
                 then Some (obj_get (req_query (split_attributes (env_req env))) "attributes")
                 else None).
  { pose proof (descriptor_GET_returned env q env' Hreturned)
      as (_ & _ & _ & _ & _ & Hattributes & _).
    now rewrite Ha in Hattributes. }
  split; [| split; [| split]].
  - intros s -> Hs. rewrite Hq. unfold split_attributes. rewrite Ha.
    assert (Htruthy : truthy (VStr s) = true).
    { simpl. destruct (String.eqb_spec s ""); [contradiction | reflexivity]. }
    rewrite Htruthy. unfold set_req_query. cbn [req_query].
    now rewrite obj_get_set.
  - intros Hnot Htruthy. rewrite Hq, Htruthy. unfold split_attributes. rewrite Ha.
    destruct a; try (now rewrite Ha). exfalso. now apply (Hnot s).
  - intros Hfalsy. now rewrite Hq, Hfalsy.
  - intros Hnone. now rewrite (buildWhere_without_hook GET env Hnone).
Qed.

Lemma attributes_projection_witness :
  let split := {| env_req := request None [("attributes", VStr "id,name")] VUndefined;
                  env_options := defaults |} in
  let kept := {| env_req := request None [("attributes", VArr [VStr "id"; VStr "name"])] VUndefined;
                 env_options := defaults |} in
  let none := {| env_req := request None [("attributes", VStr "")] VUndefined;
                 env_options := defaults |} in
  q_attributes (fst (descriptor GET split)) = Some (VArr [VStr "id"; VStr "name"])
  /\ q_attributes (fst (descriptor GET kept)) = Some (VArr [VStr "id"; VStr "name"])
  /\ q_attributes (fst (descriptor GET none)) = None
  /\ buildWhere GET split = Ok (fst (descriptor GET split), snd (descriptor GET split)).
Proof.
  intros split kept none.
  destruct (attributes_projection split (VStr "id,name")
              (fst (descriptor GET split)) (snd (descriptor GET split)) eq_refl eq_refl)
    as (Hsplit & _ & _ & Hrun).
  destruct (attributes_projection kept (VArr [VStr "id"; VStr "name"])
              (fst (descriptor GET kept)) (snd (descriptor GET kept)) eq_refl eq_refl)
    as (_ & Hkept & _ & _).
  destruct (attributes_projection none (VStr "")
              (fst (descriptor GET none)) (snd (descriptor GET none)) eq_refl eq_refl)
    as (_ & _ & Hnone & _).
  split; [| split; [| split]].
  - apply (Hsplit "id,name"); [reflexivity | discriminate].
  - apply Hkept; [intros s; discriminate | reflexivity].
  - apply Hnone. reflexivity.
  - apply Hrun. exact I.
Defined.

(** C8, as stated, fails. [GET /?attributes=id,name]: the query builder
    replaces [req.query.attributes], the string, by the array of its
    parts, so the request does not come out as it went in. *)
Lemma attributes_are_split_in_the_request :
  let req := request None [("attributes", VStr "id,name")] VUndefined in
  let env := {| env_req := req; env_options := defaults |} in
  (exists q env', buildWhere GET env = Ok (q, env')
                  /\ req_query (env_req env') = [("attributes", VArr [VStr "id"; VStr "name"])]
                  /\ req_query (env_req env) = [("attributes", VStr "id,name")])
  /\ ~ leaves_request_unchanged GET env.
Proof.
  intros req env.
  assert (Hrun : buildWhere GET env = Ok (descriptor GET env)) by reflexivity.
  split.
  - exists (fst (descriptor GET env)), (snd (descriptor GET env)).
    split; [exact Hrun |]. split; reflexivity.
  - intros Hclaim.
    specialize (Hclaim (fst (descriptor GET env))
                  (snd (descriptor GET env)) Hrun).
    discriminate Hclaim.
Qed.

(** C8, amended. The query builder, up to the call of the [beforeQuery]
    callback, leaves the configuration as it is and changes the request in
    one case only: on a [GET] whose [attributes] parameter is a non-empty
    string, [req.query.attributes] is replaced by the array of the parts
    of the string. For every other method, and whenever the parameter is not
    a non-empty string, the request is unchanged too. *)
Theorem query_builder_effects (method : Method) (env : Env) (a : value)
    (q : Query) (env' : Env) :
  obj_get (req_query (env_req env)) "attributes" = a ->
  buildWhere_descriptor method env = Ok (q, env') ->
  env_options env' = env_options env
  /\ req_params_id (env_req env') = req_params_id (env_req env)
  /\ req_body (env_req env') = req_body (env_req env)
  /\ (method <> GET -> env' = env)
  /\ ((forall s, a = VStr s -> s = "") -> env' = env)
  /\ (forall s, method = GET -> a = VStr s -> s <> "" ->
        req_query (env_req env')
        = obj_set "attributes" (VArr (map VStr (split_comma s))) (req_query (env_req env)))
  /\ (no_beforeQuery (env_options env) -> buildWhere method env = Ok (q, env')).
Proof.
  intros Ha Hreturned. rewrite (descriptor_env method env q env' Hreturned), Ha.
  assert (Hsplit : (forall s, a = VStr s -> s = "") ->
                   (if Method_eqb method GET && truthy a
                    then with_req (split_attributes (env_req env)) env
                    else env) = env).
  { intros Hnot. destruct (Method_eqb method GET); [| reflexivity].
    destruct (truthy a) eqn:Htruthy; [| reflexivity]. simpl.
    unfold split_attributes. rewrite Ha.
    destruct a; try apply with_req_same.
    rewrite (Hnot s eq_refl) in Htruthy. discriminate Htruthy. }
  repeat split.
  - now destruct (Method_eqb method GET && truthy a).
  - destruct (Method_eqb method GET && truthy a); [| reflexivity].
    unfold split_attributes. now destruct (obj_get (req_query (env_req env)) "attributes").
  - destruct (Method_eqb method GET && truthy a); [| reflexivity].
    unfold split_attributes. now destruct (obj_get (req_query (env_req env)) "attributes").
  - intros Hmethod. destruct method; try reflexivity. contradiction.
  - exact Hsplit.
  - intros s -> -> Hs. cbn [Method_eqb andb].
    assert (Htruthy : truthy (VStr s) = true).
    { simpl. destruct (String.eqb_spec s ""); [contradiction | reflexivity]. }
    rewrite Htruthy. unfold split_attributes. now rewrite Ha.
  - intros Hnone. rewrite (buildWhere_without_hook method env Hnone), Hreturned.
    pose proof (descriptor_env method env q env' Hreturned) as Henv.
    rewrite Ha in Henv. now rewrite <- Henv.
Qed.

Lemma query_builder_effects_witness :
  let req := request (Some "1") [("attributes", VStr "id,name")] VUndefined in
  let env := {| env_req := req; env_options := defaults |} in
  snd (descriptor DELETE env) = env
  /\ req_query (env_req (snd (descriptor GET env)))
     = obj_set "attributes" (VArr (map VStr (split_comma "id,name"))) (req_query req)
  /\ env_options (snd (descriptor GET env)) = defaults
  /\ buildWhere GET env = Ok (fst (descriptor GET env), snd (descriptor GET env)).
Proof.
  intros req env.
  destruct (query_builder_effects DELETE env (VStr "id,name")
              (fst (descriptor DELETE env)) (snd (descriptor DELETE env)) eq_refl eq_refl)
    as (_ & _ & _ & Hother & _).
  destruct (query_builder_effects GET env (VStr "id,name")
              (fst (descriptor GET env)) (snd (descriptor GET env)) eq_refl eq_refl)
    as (Hoptions & _ & _ & _ & _ & Hsplit & Hrun).
  split; [| split; [| split]].
  - apply Hother. discriminate.
  - apply (Hsplit "id,name"); [reflexivity | reflexivity | discriminate].
  - exact Hoptions.
  - apply Hrun. exact I.
Defined.

(** ** The controller factory *)

Lemma use_all_functions (items : list MiddlewareItem) (router : list Registration) :
  forallb is_function items = true -> exists router', use_all items router = Ok router'.
Proof.
  revert router. induction items as [| item rest IH]; intros router; simpl.
  - now eexists.
  - destruct item as [name | v]; simpl; [| discriminate]. apply IH.
Qed.

(** C9. Only the [get] routes are registered from the flag of the merged
    [options.handlers]. The tests of the [post], [put] and [delete] routes
    read [req], which the body of [createController] does not bind: with no
    global of that name the factory throws before any of them is
    registered, whatever the configuration, and returns no router. With a
    valid model, a middleware list (if any) that holds functions only and
    a [handlers] option that can be read, the exception is the
    [ReferenceError]; so it is with no option at all, where the four flags
    are [true]. *)
Theorem createController_never_registers_writes
    (globals : obj) (model : Model) (user : UserOptions) :
  assoc "req" globals = None ->
  existsb (String.eqb "req") createController_scope = false
  /\ (exists e, createController globals model user = Throw e)
  /\ (instanceof_Model model = true ->
      (forall items, middleware_items (middleware (Object_assign defaults user)) = Some items ->
                     forallb is_function items = true) ->
      forall flag, get_prop (handlers (Object_assign defaults user)) "get" = Ok flag ->
      createController globals model user = Throw (ReferenceError "req is not defined"))
  /\ createController globals post_model no_options
     = Throw (ReferenceError "req is not defined")
  /\ handler_enabled (VObj [("handlers", handlers (Object_assign defaults no_options))]) "post"
     = Ok true.
Proof.
  intros Hfree. split; [reflexivity |].
  assert (Hread : read_free globals "req" = Throw (ReferenceError "req is not defined")).
  { unfold read_free. now rewrite Hfree. }
  assert (Hroutes : forall options router,
             exists e, register_routes globals options router = Throw e).
  { intros options router. unfold register_routes.
    destruct (get_prop (handlers options) "get"); [| now eexists].
    rewrite Hread. now eexists. }
  split; [| split; [| split]].
  - unfold createController.
    destruct (instanceof_Model model); cbn [negb]; [| now eexists].
    cbv zeta.
    destruct (middleware_items _) as [items |]; [| apply Hroutes].
    destruct (use_all items _) as [router |]; [apply Hroutes | now eexists].
  - intros Hmodel Hfunctions flag Hflag. unfold createController.
    rewrite Hmodel. cbn [negb]. cbv zeta.
    assert (Hsame : forall o, match dialect_name model with
                              | Some d => if String.eqb d "postgres"
                                          then with_useLike (VBool false) o else o
                              | None => o
                              end = o
                              \/ match dialect_name model with
                                 | Some d => if String.eqb d "postgres"
                                             then with_useLike (VBool false) o else o
                                 | None => o
                                 end = with_useLike (VBool false) o).
    { intros o. destruct (dialect_name model) as [d |]; [| now left].
      destruct (String.eqb d "postgres"); [now right | now left]. }
    assert (Hrun : forall options router,
               handlers options = handlers (Object_assign defaults user) ->
               register_routes globals options router
               = Throw (ReferenceError "req is not defined")).
    { intros options router Hhandlers. unfold register_routes.
      rewrite Hhandlers, Hflag. now rewrite Hread. }
    destruct (Hsame (Object_assign defaults user)) as [-> | ->];
      cbn [middleware with_useLike];
      (destruct (middleware_items (middleware (Object_assign defaults user)))
         as [items |] eqn:Hitems;
       [ destruct (use_all_functions items
                     (register (negb (is_true (disableBodyParser (Object_assign defaults user))))
                        [UseBodyParser] [])
                     (Hfunctions items eq_refl)) as [router ->]
       | ]);
      now apply Hrun.
  - unfold createController, register_routes. simpl. now rewrite Hread.
  - reflexivity.
Qed.

Lemma createController_witness :
  createController [] post_model no_options = Throw (ReferenceError "req is not defined")
  /\ (exists e, createController [] post_model no_options = Throw e).
Proof.
  destruct (createController_never_registers_writes [] post_model no_options eq_refl)
    as (_ & Hthrows & _ & Hdefault & _).
  split; [exact Hdefault | exact Hthrows].
Defined.

(** * Further properties of the query builder *)

(** X1. For [PUT], [POST], [PATCH] and [DELETE] the descriptor is fixed by
    the path identifier and the configured relationships alone: [where]
    holds the identifier and nothing else, [limit] is 1 for [DELETE] and
    [undefined] otherwise, [returning] is set for [POST] only, and nothing
    of the query string ([limit], [offset], [filter], [search],
    [attributes]) is read, so that nothing is thrown either. *)
Theorem write_methods_ignore_query_string (method : Method) (env other : Env) :
  method <> GET ->
  buildWhere_descriptor method env
  = Ok ({| q_where := path_where (env_req env);
           q_include := Some (relationships (env_options env));
           q_limit := if Method_eqb method DELETE then VNum 1 else VUndefined;
           q_offset := VUndefined;
           q_returning := if Method_eqb method POST then Some (VBool true) else None;
           q_attributes := None |}, env)
  /\ (req_params_id (env_req other) = req_params_id (env_req env) ->
      relationships (env_options other) = relationships (env_options env) ->
      exists q, buildWhere_descriptor method other = Ok (q, other)
                /\ buildWhere_descriptor method env = Ok (q, env)).
Proof.
  intros Hmethod.
  split; [now apply descriptor_of_write |].
  intros Hid Hrel. rewrite !descriptor_of_write by exact Hmethod.
  eexists. split; [| reflexivity]. unfold path_where. now rewrite Hid, Hrel.
Qed.

Lemma write_methods_ignore_query_string_witness :
  let plain := {| env_req := request (Some "1") [] VUndefined; env_options := defaults |} in
  let noisy :=
    {| env_req := request (Some "1")
                    [("limit", VStr "5"); ("filter", VObj [("id", VStr "2")]);
                     ("search", VObj [("title", VStr "x")]); ("attributes", VStr "id")]
                    VUndefined;
       env_options := defaults |} in
  buildWhere_descriptor DELETE noisy
  = Ok ({| q_where := path_where (env_req noisy);
           q_include := Some (relationships defaults);
           q_limit := VNum 1; q_offset := VUndefined;
           q_returning := None; q_attributes := None |}, noisy)
  /\ exists q, buildWhere_descriptor DELETE plain = Ok (q, plain)
               /\ buildWhere_descriptor DELETE noisy = Ok (q, noisy).
Proof.
  intros plain noisy.
  destruct (write_methods_ignore_query_string DELETE noisy plain) as [Hform Hsame].
  - discriminate.
  - split; [exact Hform | apply Hsame; reflexivity].
Defined.

(** X2. On a [GET], every [filter[field]=value] parameter whose field is
    not searched as well puts the value, as it is, on [field] of the [where]
    clause of the descriptor the query builder returns. This holds for the
    field [id] too: [filter[id]] replaces the identifier of the path. *)
Theorem filter_adds_equality (env : Env) (field : string) (q : Query) (env' : Env) :
  let req := env_req env in
  buildWhere_descriptor GET env = Ok (q, env') ->
  In field (filter_keys req) ->
  ~ In field (search_keys req) ->
  q_where q !! field = Some (own_prop (obj_get (req_query req) "filter") field).
Proof.
  intros req Hreturned Hfilter Hsearch.
  pose proof (descriptor_GET_returned env q env' Hreturned) as (-> & _).
  fold req. rewrite assign_all_untouched by exact Hsearch.
  now rewrite (assign_all_assigned
                 (fun f => own_prop (obj_get (req_query req) "filter") f)).
Qed.

Lemma filter_adds_equality_witness :
  let req := request (Some "1")
               [("filter", VObj [("authorId", VStr "1"); ("id", VStr "2")]);
                ("search", VObj [("title", VStr "x")])] VUndefined in
  let env := {| env_req := req; env_options := defaults |} in
  q_where (fst (descriptor GET env)) !! "authorId" = Some (VStr "1")
  /\ q_where (fst (descriptor GET env)) !! "id" = Some (VStr "2").
Proof.
  intros req env. split.
  - apply (filter_adds_equality env "authorId" (fst (descriptor GET env))
             (snd (descriptor GET env))).
    + reflexivity.
    + simpl. now left.
    + simpl. intros [H | []]. discriminate H.
  - apply (filter_adds_equality env "id" (fst (descriptor GET env))
             (snd (descriptor GET env))).
    + reflexivity.
    + simpl. right. now left.
    + simpl. intros [H | []]. discriminate H.
Defined.

(** X3. On a [GET], a field that is neither filtered nor searched is not
    constrained, except [id], which holds the identifier of the path when
    there is one: the [where] clause of the descriptor the query builder
    returns has no other entries than the path identifier, the filters and
    the searches. *)
Theorem where_constrains_requested_fields_only (env : Env) (field : string)
    (q : Query) (env' : Env) :
  let req := env_req env in
  buildWhere_descriptor GET env = Ok (q, env') ->
  ~ In field (filter_keys req) ->
  ~ In field (search_keys req) ->
  q_where q !! field
  = if String.eqb field "id" && truthy (param_value (req_params_id req))
    then Some (param_value (req_params_id req))
    else None.
Proof.
  intros req Hreturned Hfilter Hsearch.
  pose proof (descriptor_GET_returned env q env' Hreturned) as (-> & _).
  fold req. rewrite !assign_all_untouched by assumption.
  apply path_where_lookup.
Qed.

Lemma where_constrains_requested_fields_only_witness :
  let req := request (Some "1") [("filter", VObj [("authorId", VStr "1")])] VUndefined in
  let env := {| env_req := req; env_options := defaults |} in
  q_where (fst (descriptor GET env)) !! "id" = Some (VStr "1")
  /\ q_where (fst (descriptor GET env)) !! "title" = None.
Proof.
  intros req env. split.
  - apply (where_constrains_requested_fields_only env "id" (fst (descriptor GET env))
             (snd (descriptor GET env))).
    + reflexivity.
    + simpl. intros [H | []]. discriminate H.
    + simpl. intros [].
  - apply (where_constrains_requested_fields_only env "title" (fst (descriptor GET env))
             (snd (descriptor GET env))).
    + reflexivity.
    + simpl. intros [H | []]. discriminate H.
    + simpl. intros [].
Defined.

(** X4. On a [GET], the query builder returns a descriptor unless a
    searched value has no text, and then throws the exception of that
    value. In the descriptor, [limit] is the [limit] of the query string
    when that is truthy, else the configured [limit] when that is truthy,
    else [undefined]; [offset] is the [offset] of the query string when
    truthy, else [undefined]. Both are passed as they come (a string stays
    a string), and neither filters, searches nor [attributes] change them,
    the [include] list or [returning]. *)
Theorem pagination_of_get (env : Env) :
  let req := env_req env in
  let options := env_options env in
  match buildWhere_descriptor GET env with
  | Ok (q, _) =>
      q_limit q = (if truthy (obj_get (req_query req) "limit")
                   then obj_get (req_query req) "limit"
                   else if truthy (opt_limit options) then opt_limit options else VUndefined)
      /\ q_offset q = (if truthy (obj_get (req_query req) "offset")
                       then obj_get (req_query req) "offset"
                       else VUndefined)
      /\ q_include q = Some (relationships options)
      /\ q_returning q = None
  | Throw e =>
      exists f, In f (search_keys req)
                /\ ToString (own_prop (obj_get (req_query req) "search") f) = Throw e
  end.
Proof.
  intros req options.
  destruct (buildWhere_descriptor GET env) as [[q env'] | e] eqn:Hd.
  - pose proof (descriptor_GET_returned env q env' Hd)
      as (_ & Hlimit & Hoffset & Hinclude & Hreturning & _).
    now repeat split.
  - now apply descriptor_throws in Hd as [_ Hf].
Qed.

(** * Further properties of the route handlers of index.js *)

(** Runs a handler symbolically: unfolds the monad and splits on every
    outcome the run depends on. *)
Ltac run_cases :=
  unfold bind, catch, lift, ret, throw, respond_with, respond, findOne_call, findAll_call,
    create_call, destroy_call, save_call, storage_call, initial;
  cbn [fst snd w_db w_calls w_response app];
  repeat (match goal with
          | |- context [match ?x with _ => _ end] =>
              lazymatch x with
              | context [match _ with _ => _ end] => fail
              | _ => destruct x eqn:?
              end
          end;
          cbn [fst snd w_db w_calls w_response app]).

Lemma answered_ok {S : Storage} (w : World S) (s : Z) (b : value) :
  w_response w = Some {| status := s; json := b |} ->
  s = 200 \/ (In s [400; 404; 422; 500] /\ error_body b) ->
  answered (Ok tt, w).
Proof. intros Hw Hs. exists {| status := s; json := b |}. now split. Qed.

Lemma message_body_is_error_body (e : exn) : error_body (message_body e).
Proof. now eexists. Qed.

Lemma violations_body_is_error_body (items : list ErrorItem) :
  error_body (violations_body items).
Proof. now eexists. Qed.

#[export] Hint Resolve message_body_is_error_body violations_body_is_error_body : extends.

Ltac close_answered :=
  first [ reflexivity
        | eapply answered_ok;
          [ reflexivity
          | first [ left; reflexivity
                  | right; split; [ simpl; tauto | auto with extends; now eexists ] ] ] ].

(** X5. Every route handler of index.js deals with its request in one of
    two ways, whatever the storage layer and the callbacks do: it ends
    having sent a response, and a response that is not a 200 has one of the
    statuses 400, 404, 422, 500 and an [errors] array as its body; or an
    exception leaves the handler and no response was sent. *)
Theorem handlers_answer_or_throw
    (S : Storage) (StringToNumber : string -> option Z) (pluralize : value -> value)
    (model : Model) (options : Options) (req : Request) (db : DB S) :
  answered (Index.get_all pluralize model options req (initial db))
  /\ answered (Index.get_one pluralize model options req (initial db))
  /\ answered (Index.post pluralize model options req (initial db))
  /\ answered (Index.put StringToNumber pluralize model options req (initial db))
  /\ answered (Index.delete options req (initial db)).
Proof.
  repeat split.
  - unfold Index.get_all, Index.build. run_cases; close_answered.
  - unfold Index.get_one, Index.build. run_cases; close_answered.
  - unfold Index.post, Index.build, Index.post_catch. run_cases; close_answered.
  - unfold Index.put, Index.build, Index.put_catch. run_cases; close_answered.
  - unfold Index.delete, Index.build, Index.delete_catch. run_cases; close_answered.
Qed.

Ltac close_calls :=
  first [ left; reflexivity
        | right; left; eexists; reflexivity
        | right; right; eexists _, _; reflexivity
        | right; eexists; reflexivity
        | right; eexists _, _; reflexivity ].

(** X6. What each route handler of index.js asks of the storage layer, on
    every run: the list handler at most one [findAll], the get-one handler
    at most one [findOne], the create handler at most one [create], the
    delete handler at most one [destroy], and the update handler a
    [findOne] followed by at most one [save]. No handler reads after
    writing, a [GET] never writes, and no call is repeated. *)
Theorem handlers_storage_calls
    (S : Storage) (StringToNumber : string -> option Z) (pluralize : value -> value)
    (model : Model) (options : Options) (req : Request) (db : DB S) :
  calls_of_list (w_calls (snd (Index.get_all pluralize model options req (initial db))))
  /\ calls_of_get_one (w_calls (snd (Index.get_one pluralize model options req (initial db))))
  /\ calls_of_create (w_calls (snd (Index.post pluralize model options req (initial db))))
  /\ calls_of_update
       (w_calls (snd (Index.put StringToNumber pluralize model options req (initial db))))
  /\ calls_of_delete (w_calls (snd (Index.delete options req (initial db)))).
Proof.
  repeat split.
  - unfold Index.get_all, Index.build, calls_of_list. run_cases; close_calls.
  - unfold Index.get_one, Index.build, calls_of_get_one. run_cases; close_calls.
  - unfold Index.post, Index.build, Index.post_catch, calls_of_create.
    run_cases; close_calls.
  - unfold Index.put, Index.build, Index.put_catch, calls_of_update.
    run_cases; close_calls.
  - unfold Index.delete, Index.build, Index.delete_catch, calls_of_delete.
    run_cases; close_calls.
Qed.

(** Runs a handler along the outcomes given as hypotheses. *)
Ltac run_known :=
  unfold bind, catch, lift, ret, throw, respond_with, respond, findOne_call, findAll_call,
    create_call, destroy_call, save_call, storage_call, initial;
  cbn [fst snd w_db w_calls w_response app];
  repeat (match goal with
          | H : ?x = _ |- context [?x] => rewrite H
          end;
          cbn [fst snd w_db w_calls w_response app]).

Lemma formatOutput_plural (pluralize : value -> value) (records : list value)
    (model : Model) (options : Options) :
  formatOutput pluralize (VArr records) model options
  = assign_key (pluralize (output_name model options)) (VArr records).
Proof.
  unfold formatOutput, output_name. cbn [Array_isArray].
  destruct (truthy (overrideOutputName options)); reflexivity.
Qed.

(** The envelope a handler of index.js sends from inside its chain, or the
    exception of a name that has no text, which the chain catches. *)
Lemma respond_with_key {S : Storage} (s : Z) (name results : value) (w : World S) :
  respond_with s (assign_key name results) w
  = match ToString name with
    | Ok key => respond s (VObj [(key, results)]) w
    | Throw e => (Throw e, w)
    end.
Proof. unfold respond_with, assign_key. now destruct (ToString name). Qed.

(** X7. When the [beforeQuery] callback throws, so does [buildWhere], and
    the exception leaves every route handler of index.js before anything
    is asked of the storage layer and before any response is sent: the
    [catch] of the handler's promise chain does not cover it. *)
Theorem beforeQuery_failure_leaves_handler
    (S : Storage) (StringToNumber : string -> option Z) (pluralize : value -> value)
    (model : Model) (options : Options) (req : Request) (db : DB S) (e : exn) :
  let env := {| env_req := req; env_options := options |} in
  (forall method, buildWhere method env = Throw e) ->
  Index.get_all pluralize model options req (initial db) = (Throw e, initial db)
  /\ Index.get_one pluralize model options req (initial db) = (Throw e, initial db)
  /\ Index.delete options req (initial db) = (Throw e, initial db)
  /\ (forall input,
        get_prop (req_body req) (model_name model) = Ok input ->
        Index.post pluralize model options req (initial db) = (Throw e, initial db))
  /\ (changes_primary_key StringToNumber model options req = Ok false ->
      Index.put StringToNumber pluralize model options req (initial db)
      = (Throw e, initial db)).
Proof.
  intros env Hthrows.
  pose proof (Hthrows GET) as Hget. pose proof (Hthrows POST) as Hpost.
  pose proof (Hthrows PUT) as Hput. pose proof (Hthrows DELETE) as Hdelete.
  unfold env in *. clear Hthrows.
  repeat split.
  - unfold Index.get_all, Index.build. now run_known.
  - unfold Index.get_one, Index.build. now run_known.
  - unfold Index.delete, Index.build. now run_known.
  - intros input Hinput. unfold Index.post, Index.build. now run_known.
  - intros Hguard. unfold Index.put, Index.build. now run_known.
Qed.

Lemma beforeQuery_failure_witness :
  let options := with_hooks {| beforeQuery := Some (fun _ _ => Throw boom);
                               afterCreate := None; beforeUpdate := None;
                               afterUpdate := None |} in
  let req := request (Some "1") [] (VObj [("post", VObj [("title", VStr "X")])]) in
  let db : DB MemoryStore.store := [[("id", VNum 1); ("title", VStr "One Title")]] in
  Index.get_all plural_s post_model options req (initial db) = (Throw boom, initial db)
  /\ Index.get_one plural_s post_model options req (initial db) = (Throw boom, initial db)
  /\ Index.delete options req (initial db) = (Throw boom, initial db)
  /\ Index.post plural_s post_model options req (initial db) = (Throw boom, initial db)
  /\ Index.put decimal_number plural_s post_model options req (initial db)
     = (Throw boom, initial db).
Proof.
  intros options req db.
  destruct (beforeQuery_failure_leaves_handler MemoryStore.store decimal_number plural_s
              post_model options req db boom)
    as (Hall & Hone & Hdelete & Hpost & Hput).
  - intros method. now destruct method.
  - split; [exact Hall |]. split; [exact Hone |]. split; [exact Hdelete |]. split.
    + apply (Hpost (VObj [("title", VStr "X")])). reflexivity.
    + apply Hput. reflexivity.
Defined.

(** X8. The list handler of index.js asks [findAll] once, with the
    descriptor of [buildWhere] stripped of its [include] list unless
    [includeRelationsInGetAll] is [true]. Whatever [findAll] returns, an
    empty list included, is answered 200 under the plural of the override
    name, when that is truthy, or of the model name; whatever it is rejected
    with is answered 500 with the message of the error. So is a plural
    that has no text to name the envelope with: the assignment throws
    inside the chain. *)
Theorem list_answers_200_or_500
    (S : Storage) (pluralize : value -> value) (model : Model) (options : Options)
    (req : Request) (built : Query) (env : Env) (db db1 : DB S) :
  buildWhere GET {| env_req := req; env_options := options |} = Ok (built, env) ->
  let query :=
    if is_true (includeRelationsInGetAll options) then built else set_include None built in
  let name :=
    pluralize (if truthy (overrideOutputName options)
               then overrideOutputName options
               else VStr (model_name model)) in
  (forall records,
     model_findAll S query db = (Ok records, db1) ->
     Index.get_all pluralize model options req (initial db)
     = (Ok tt, {| w_db := db1; w_calls := [CallFindAll query];
                  w_response :=
                    Some (match ToString name with
                          | Ok key => {| status := 200;
                                         json := VObj [(key, VArr (map VObj records))] |}
                          | Throw e => {| status := 500; json := message_body e |}
                          end) |}))
  /\ (forall e,
        model_findAll S query db = (Throw e, db1) ->
        Index.get_all pluralize model options req (initial db)
        = (Ok tt, {| w_db := db1; w_calls := [CallFindAll query];
                     w_response := Some {| status := 500; json := message_body e |} |})).
Proof.
  intros Hbuilt query name.
  assert (Hquery : (if negb (is_true (includeRelationsInGetAll options))
                    then set_include None built else built) = query).
  { unfold query. now destruct (is_true (includeRelationsInGetAll options)). }
  split.
  - intros records Hfind. unfold Index.get_all, Index.build.
    unfold bind, catch, ret, findAll_call, storage_call, initial.
    rewrite Hbuilt. cbn [fst snd w_db w_calls w_response app]. rewrite Hquery, Hfind.
    rewrite formatOutput_plural, respond_with_key. fold (output_name model options).
    unfold output_name. fold name. now destruct (ToString name).
  - intros e Hfind. unfold Index.get_all, Index.build. now run_known.
Qed.

Lemma list_answers_witness :
  let req := request None [("filter", VObj [("id", VStr "7")])] VUndefined in
  let env := {| env_req := req; env_options := defaults |} in
  let query := set_include None (fst (descriptor GET env)) in
  let db : DB MemoryStore.store := [[("id", VNum 1); ("title", VStr "One Title")]] in
  Index.get_all plural_s post_model defaults req (initial db)
  = (Ok tt, {| w_db := db; w_calls := [CallFindAll query];
               w_response := Some {| status := 200; json := VObj [("posts", VArr [])] |} |})
  /\ Index.get_all plural_s post_model defaults req (initial (S := rejecting boom []) true)
     = (Ok tt, {| w_db := (true : DB (rejecting boom [])); w_calls := [CallFindAll query];
                  w_response := Some {| status := 500; json := message_body boom |} |}).
Proof.
  intros req env query db. split.
  - destruct (list_answers_200_or_500 MemoryStore.store plural_s post_model defaults
                req (fst (descriptor GET env)) env db db eq_refl) as [Hok _].
    apply (Hok []). reflexivity.
  - destruct (list_answers_200_or_500 (rejecting boom []) plural_s post_model defaults
                req (fst (descriptor GET env)) env true true eq_refl) as [_ Hko].
    apply (Hko boom). reflexivity.
Defined.

(** X9. The get-one handler of index.js answers a record found with 200
    and the record under the override name, when that is truthy, or the
    model name, neither pluralised; a rejection of [findOne] is answered 500
    with the message of the error, whatever the kind of the error. So is
    an override name that has no text to name the envelope with. *)
Theorem get_one_answers_200_or_500
    (S : Storage) (pluralize : value -> value) (model : Model) (options : Options)
    (req : Request) (built : Query) (env : Env) (db db1 : DB S) :
  buildWhere GET {| env_req := req; env_options := options |} = Ok (built, env) ->
  let name := if truthy (overrideOutputName options)
              then overrideOutputName options
              else VStr (model_name model) in
  (forall record,
     model_findOne S built db = (Ok (Some record), db1) ->
     Index.get_one pluralize model options req (initial db)
     = (Ok tt, {| w_db := db1; w_calls := [CallFindOne built];
                  w_response :=
                    Some (match ToString name with
                          | Ok key => {| status := 200; json := VObj [(key, VObj record)] |}
                          | Throw e => {| status := 500; json := message_body e |}
                          end) |}))
  /\ (forall name message errs,
        model_findOne S built db = (Throw (ErrorObject name message errs), db1) ->
        Index.get_one pluralize model options req (initial db)
        = (Ok tt, {| w_db := db1; w_calls := [CallFindOne built];
                     w_response :=
                       Some {| status := 500;
                               json := VObj [("errors",
                                              VArr [VObj [("message", message)]])] |} |})).
Proof.
  intros Hbuilt name. split.
  - intros record Hfind. unfold Index.get_one, Index.build.
    unfold bind, catch, ret, findOne_call, storage_call, initial.
    rewrite Hbuilt. cbn [fst snd w_db w_calls w_response app]. rewrite Hfind.
    rewrite formatOutput_single, respond_with_key by reflexivity.
    unfold output_name. fold name.
    destruct (ToString name) as [key | e] eqn:Hkey; [reflexivity |].
    apply ToString_throws in Hkey. now subst e.
  - intros name' message errs Hfind. unfold Index.get_one, Index.build. now run_known.
Qed.

Lemma get_one_answers_witness :
  let req := request (Some "1") [] VUndefined in
  let env := {| env_req := req; env_options := defaults |} in
  let built := fst (descriptor GET env) in
  let db : DB MemoryStore.store := [[("id", VNum 1); ("title", VStr "One Title")]] in
  Index.get_one plural_s post_model defaults req (initial db)
  = (Ok tt, {| w_db := db; w_calls := [CallFindOne built];
               w_response :=
                 Some {| status := 200;
                         json := VObj [("post", VObj [("id", VNum 1);
                                                      ("title", VStr "One Title")])] |} |})
  /\ Index.get_one plural_s post_model defaults req (initial (S := rejecting title_taken []) true)
     = (Ok tt, {| w_db := (true : DB (rejecting title_taken []));
                  w_calls := [CallFindOne built];
                  w_response :=
                    Some {| status := 500;
                            json := VObj [("errors",
                                           VArr [VObj [("message", VStr "Validation error")]])] |} |}).
Proof.
  intros req env built db. split.
  - destruct (get_one_answers_200_or_500 MemoryStore.store plural_s post_model defaults
                req built env db db eq_refl) as [Hok _].
    apply (Hok [("id", VNum 1); ("title", VStr "One Title")]). reflexivity.
  - destruct (get_one_answers_200_or_500 (rejecting title_taken []) plural_s post_model
                defaults req built env true true eq_refl) as [_ Hko].
    apply (Hko "SequelizeUniqueConstraintError" (VStr "Validation error")
             (Some [{| item_message := VStr "title must be unique";
                       item_path := VStr "title" |}])).
    reflexivity.
Defined.

(** X10. [findAll] of the handlers module answers on its own: 200 with the
    records under the plural name when the storage call succeeds, an empty
    list included, and 500 with the message of the error when it is
    rejected, or when the plural has no text to name the envelope with. It
    does not hand the rejection to the shared error handler, so no kind of
    error is answered otherwise. *)
Theorem findAll_answers_200_or_500
    (S : Storage) (pluralize : value -> value) (model : Model) (options : Options)
    (req : Request) (query : Query) (db db1 : DB S) (outcome : Result (list instance)) :
  model_findAll S query db = (outcome, db1) ->
  Handlers.findAll pluralize model query req options (initial db)
  = (Ok tt,
     {| w_db := db1; w_calls := [CallFindAll query];
        w_response :=
          Some (match outcome with
                | Ok records =>
                    match ToString (pluralize
                                      (if truthy (overrideOutputName options)
                                       then overrideOutputName options
                                       else VStr (model_name model))) with
                    | Ok key =>
                        {| status := 200; json := VObj [(key, VArr (map VObj records))] |}
                    | Throw e => {| status := 500; json := message_body e |}
                    end
                | Throw e => {| status := 500; json := message_body e |}
                end) |}).
Proof.
  intros Hfind. unfold Handlers.findAll.
  unfold bind, catch, findAll_call, storage_call, initial.
  cbn [fst snd w_db w_calls w_response app]. rewrite Hfind.
  destruct outcome as [records | e]; [| reflexivity].
  rewrite formatOutput_plural, respond_with_key. unfold output_name.
  now destruct (ToString _).
Qed.

Lemma findAll_answers_witness :
  let query := fst (descriptor GET
                      {| env_req := request None [] VUndefined; env_options := defaults |}) in
  Handlers.findAll plural_s post_model query (request None [] VUndefined) defaults
    (initial (S := rejecting errors_notFound []) true)
  = (Ok tt, {| w_db := (true : DB (rejecting errors_notFound []));
               w_calls := [CallFindAll query];
               w_response :=
                 Some {| status := 500; json := message_body errors_notFound |} |}).
Proof.
  intros query.
  apply (findAll_answers_200_or_500 (rejecting errors_notFound []) plural_s post_model
           defaults (request None [] VUndefined) query true true (Throw errors_notFound)).
  reflexivity.
Defined.



(** X12. The update handler of index.js answers 404 with the message
    "record not found" when [findOne] finds nothing, and then asks nothing
    more of the storage layer: [save] is not called. *)
Theorem update_of_absent_record_is_404
    (S : Storage) (StringToNumber : string -> option Z) (pluralize : value -> value)
    (model : Model) (options : Options) (req : Request)
    (built : Query) (env : Env) (db db1 : DB S) :
  changes_primary_key StringToNumber model options req = Ok false ->
  buildWhere PUT {| env_req := req; env_options := options |} = Ok (built, env) ->
  model_findOne S built db = (Ok None, db1) ->
  Index.put StringToNumber pluralize model options req (initial db)
  = (Ok tt, {| w_db := db1; w_calls := [CallFindOne built];
               w_response :=
                 Some {| status := 404;
                         json := VObj [("errors",
                                        VArr [VObj [("message", VStr "record not found")]])] |} |}).
Proof.
  intros Hguard Hbuilt Hfind. unfold Index.put, Index.build. now run_known.
Qed.

Lemma update_of_absent_record_witness :
  let req := request (Some "7") [] (VObj [("post", VObj [("title", VStr "X")])]) in
  let env := {| env_req := req; env_options := defaults |} in
  let db : DB MemoryStore.store := [[("id", VNum 1); ("title", VStr "One Title")]] in
  Index.put decimal_number plural_s post_model defaults req (initial db)
  = (Ok tt, {| w_db := db; w_calls := [CallFindOne (fst (descriptor PUT env))];
               w_response :=
                 Some {| status := 404;
                         json := VObj [("errors",
                                        VArr [VObj [("message", VStr "record not found")]])] |} |}).
Proof.
  intros req env db.
  apply (update_of_absent_record_is_404 MemoryStore.store decimal_number plural_s
           post_model defaults req (fst (descriptor PUT env)) env db db);
    reflexivity.
Defined.

(** X13. A successful update in index.js: the record found has every field
    of [req.body[model.name]] set on it, in the order of the keys, goes
    through the [beforeUpdate] callback and is saved; what [save] returns
    goes through [afterUpdate] and is answered 200 under the singular name
    (500 when the override name has no text to name the envelope with).
    The storage layer sees [findOne], then [save], and nothing else. *)
Theorem update_saves_the_body_fields
    (S : Storage) (StringToNumber : string -> option Z) (pluralize : value -> value)
    (model : Model) (options : Options) (req : Request)
    (built : Query) (env : Env) (db db1 db2 : DB S)
    (input : value) (fields : list string) (record updated saved sent : instance) :
  changes_primary_key StringToNumber model options req = Ok false ->
  buildWhere PUT {| env_req := req; env_options := options |} = Ok (built, env) ->
  model_findOne S built db = (Ok (Some record), db1) ->
  get_prop (req_body (env_req env)) (model_name model) = Ok input ->
  Object_keys_of input = Ok fields ->
  call_hook (hook_of options beforeUpdate)
    (fold_left (fun r field => instance_set S field (own_prop input field) r)
               fields record) = Ok updated ->
  instance_save S updated db1 = (Ok saved, db2) ->
  call_hook (hook_of options afterUpdate) saved = Ok sent ->
  Index.put StringToNumber pluralize model options req (initial db)
  = (Ok tt, {| w_db := db2; w_calls := [CallFindOne built; CallSave updated];
               w_response :=
                 Some (match ToString (if truthy (overrideOutputName options)
                                       then overrideOutputName options
                                       else VStr (model_name model)) with
                       | Ok key => {| status := 200; json := VObj [(key, VObj sent)] |}
                       | Throw e => {| status := 500; json := message_body e |}
                       end) |}).
Proof.
  intros Hguard Hbuilt Hfind Hinput Hfields Hbefore Hsave Hafter.
  unfold Index.put, Index.build.
  unfold bind, catch, lift, ret, findOne_call, save_call, storage_call, initial.
  cbn [fst snd w_db w_calls w_response app].
  repeat (match goal with
          | H : ?x = _ |- context [?x] => rewrite H
          end;
          cbn [fst snd w_db w_calls w_response app]).
  rewrite formatOutput_single, respond_with_key by reflexivity. unfold output_name.
  destruct (ToString _) as [key | e] eqn:Hkey; [reflexivity |].
  apply ToString_throws in Hkey. now subst e.
Qed.

Lemma update_saves_witness :
  let req := request (Some "1") []
               (VObj [("post", VObj [("title", VStr "Updated Title");
                                     ("description", VStr "Test")])]) in
  let env := {| env_req := req; env_options := defaults |} in
  let db : DB MemoryStore.store :=
    [[("id", VNum 1); ("title", VStr "One Title")]; [("id", VNum 2); ("title", VStr "Two")]] in
  let updated : instance :=
    [("id", VNum 1); ("title", VStr "Updated Title"); ("description", VStr "Test")] in
  Index.put decimal_number plural_s post_model defaults req (initial db)
  = (Ok tt, {| w_db := ([updated; [("id", VNum 2); ("title", VStr "Two")]]
                         : DB MemoryStore.store);
               w_calls := [CallFindOne (fst (descriptor PUT env)); CallSave updated];
               w_response :=
                 Some {| status := 200; json := VObj [("post", VObj updated)] |} |}).
Proof.
  intros req env db updated.
  apply (update_saves_the_body_fields MemoryStore.store decimal_number plural_s
           post_model defaults req (fst (descriptor PUT env)) env db db
           [updated; [("id", VNum 2); ("title", VStr "Two")]]
           (VObj [("title", VStr "Updated Title"); ("description", VStr "Test")])
           ["title"; "description"] [("id", VNum 1); ("title", VStr "One Title")]
           updated updated updated);
    reflexivity.
Defined.

(** X14. A [SequelizeForeignKeyConstraintError] raised by [destroy] is
    answered 400 by the delete handler of index.js with the fixed message
    "foreign key constraint error": the message of the error itself is not
    sent. *)
Theorem foreign_key_error_on_delete_is_400
    (S : Storage) (options : Options) (req : Request)
    (message : value) (errs : option (list ErrorItem))
    (built : Query) (env : Env) (db db1 : DB S) :
  buildWhere DELETE {| env_req := req; env_options := options |} = Ok (built, env) ->
  model_destroy S built db
  = (Throw (ErrorObject "SequelizeForeignKeyConstraintError" message errs), db1) ->
  Index.delete options req (initial db)
  = (Ok tt, {| w_db := db1; w_calls := [CallDestroy built];
               w_response :=
                 Some {| status := 400;
                         json := VObj [("errors",
                                        VArr [VObj [("message",
                                                     VStr "foreign key constraint error")]])] |} |}).
Proof.
  intros Hbuilt Hdestroy. unfold Index.delete, Index.build. now run_known.
Qed.

Lemma foreign_key_error_witness :
  let e := ErrorObject "SequelizeForeignKeyConstraintError"
             (VStr "update or delete on table authors violates a constraint") None in
  let req := request (Some "1") [] VUndefined in
  let env := {| env_req := req; env_options := defaults |} in
  Index.delete defaults req (initial (S := rejecting e []) true)
  = (Ok tt, {| w_db := (true : DB (rejecting e []));
               w_calls := [CallDestroy (fst (descriptor DELETE env))];
               w_response :=
                 Some {| status := 400;
                         json := VObj [("errors",
                                        VArr [VObj [("message",
                                                     VStr "foreign key constraint error")]])] |} |}).
Proof.
  intros e req env.
  apply (foreign_key_error_on_delete_is_400 (rejecting e []) defaults req
           (VStr "update or delete on table authors violates a constraint") None
           (fst (descriptor DELETE env)) env true true);
    reflexivity.
Defined.



(** * Further properties of the primary-key guard *)

Lemma put_reaches_findOne
    (S : Storage) (StringToNumber : string -> option Z) (pluralize : value -> value)
    (model : Model) (options : Options) (req : Request)
    (built : Query) (env : Env) (db : DB S) :
  changes_primary_key StringToNumber model options req = Ok false ->
  buildWhere PUT {| env_req := req; env_options := options |} = Ok (built, env) ->
  exists l,
    w_calls (snd (Index.put StringToNumber pluralize model options req (initial db)))
    = CallFindOne built :: l.
Proof.
  intros Hguard Hbuilt.
  unfold Index.put, Index.build. unfold bind at 1. unfold lift at 1.
  rewrite Hguard. unfold bind at 1. rewrite Hbuilt. unfold ret at 1.
  apply opens_initial.
  apply (put_chain_opens pluralize model options built (env_req env)); extends_cases.
Qed.

Lemma put_rejects
    (S : Storage) (StringToNumber : string -> option Z) (pluralize : value -> value)
    (model : Model) (options : Options) (req : Request) (db : DB S) :
  changes_primary_key StringToNumber model options req = Ok true ->
  Index.put StringToNumber pluralize model options req (initial db)
  = (Ok tt, {| w_db := db; w_calls := [];
               w_response := Some {| status := 422; json := primary_key_body model |} |}).
Proof.
  intros Hguard. unfold Index.put, bind, lift. now rewrite Hguard.
Qed.

(** X16. The guard of the update lets every request through, without
    reading the body, when [allowChangingPrimaryKey] is [true] or the model
    has no primary-key field, and it lets through a body that does not
    name the primary key. The update then goes on to [findOne]: with
    [allowChangingPrimaryKey] set, a body whose primary key differs from the
    identifier of the path is applied like any other field. *)
Theorem guard_lets_through
    (S : Storage) (StringToNumber : string -> option Z) (pluralize : value -> value)
    (model : Model) (options : Options) (req : Request)
    (built : Query) (env : Env) (db : DB S) :
  is_true (allowChangingPrimaryKey options) = true
  \/ truthy (primaryKeyField model) = false
  \/ (exists fields,
        get_prop (req_body req) (model_name model) = Ok fields
        /\ get_computed fields (primaryKeyField model) = Ok VUndefined) ->
  buildWhere PUT {| env_req := req; env_options := options |} = Ok (built, env) ->
  changes_primary_key StringToNumber model options req = Ok false
  /\ exists l,
       w_calls (snd (Index.put StringToNumber pluralize model options req (initial db)))
       = CallFindOne built :: l.
Proof.
  intros Hoff Hbuilt.
  assert (Hguard : changes_primary_key StringToNumber model options req = Ok false).
  { unfold changes_primary_key.
    destruct Hoff as [Hallow | [Hfield | (fields & Hfields & Hpk)]].
    - now rewrite Hallow.
    - rewrite Hfield. now rewrite andb_false_r.
    - destruct (negb (is_true (allowChangingPrimaryKey options))
                && truthy (primaryKeyField model)); [| reflexivity].
      now rewrite Hfields, Hpk. }
  split; [exact Hguard |].
  now apply put_reaches_findOne with (env := env).
Qed.

Lemma guard_lets_through_witness :
  let options :=
    {| allowChangingPrimaryKey := VBool true;
       includeRelationsInGetAll := VBool false; disableBodyParser := VBool false;
       overrideOutputName := VNull; opt_limit := VUndefined;
       restrictedFields := VArr []; relationships := VArr [];
       handlers := handlers defaults; middleware := middleware defaults;
       useLike := VBool true; hooks := None |} in
  let req := request (Some "1") [] (VObj [("post", VObj [("id", VNum 2)])]) in
  let env := {| env_req := req; env_options := options |} in
  let db : DB MemoryStore.store := [[("id", VNum 1); ("title", VStr "One Title")]] in
  changes_primary_key decimal_number post_model options req = Ok false
  /\ (exists l,
        w_calls (snd (Index.put decimal_number plural_s post_model options req (initial db)))
        = CallFindOne (fst (descriptor PUT env)) :: l).
Proof.
  intros options req env db.
  destruct (guard_lets_through MemoryStore.store decimal_number plural_s post_model
              options req (fst (descriptor PUT env)) env db)
    as [Hguard Hcalls].
  - left. reflexivity.
  - reflexivity.
  - split; [exact Hguard | exact Hcalls].
Defined.

(** X17. With the guard in force and an identifier in the path, a body
    whose primary key is [null] is always answered 422, and a body whose
    primary key is a string is answered 422 unless the string is the
    identifier of the path, character for character: no number is read
    from either ("01" against the path "1" is a change). Nothing is asked
    of the storage layer. *)
Theorem guard_on_null_and_strings
    (S : Storage) (StringToNumber : string -> option Z) (pluralize : value -> value)
    (model : Model) (options : Options) (req : Request) (fields pk : value) (db : DB S) :
  is_true (allowChangingPrimaryKey options) = false ->
  truthy (primaryKeyField model) = true ->
  get_prop (req_body req) (model_name model) = Ok fields ->
  get_computed fields (primaryKeyField model) = Ok pk ->
  (pk = VNull /\ req_params_id req <> None)
  \/ (exists t, pk = VStr t /\ req_params_id req <> Some t) ->
  Index.put StringToNumber pluralize model options req (initial db)
  = (Ok tt, {| w_db := db; w_calls := [];
               w_response := Some {| status := 422; json := primary_key_body model |} |}).
Proof.
  intros Hallow Hfield Hfields Hpk Hcase.
  apply put_rejects.
  apply (guard_rejects StringToNumber model options req fields pk Hallow Hfields Hpk Hfield).
  - destruct Hcase as [[-> _] | (t & -> & _)]; discriminate.
  - destruct Hcase as [[-> Hid] | (t & -> & Hne)].
    + destruct (req_params_id req); [reflexivity | contradiction].
    + destruct (req_params_id req) as [s |]; [| reflexivity]. simpl.
      destruct (String.eqb_spec s t) as [-> | _]; [| reflexivity].
      now contradiction Hne.
Qed.

Lemma guard_on_null_and_strings_witness :
  let rejected (db : DB MemoryStore.store) : Result unit * World MemoryStore.store :=
    (Ok tt, {| w_db := db; w_calls := [];
               w_response := Some {| status := 422; json := primary_key_body post_model |} |}) in
  let db : DB MemoryStore.store := [[("id", VNum 1); ("title", VStr "One Title")]] in
  Index.put decimal_number plural_s post_model defaults
    (request (Some "1") [] (VObj [("post", VObj [("id", VStr "01")])])) (initial db)
  = rejected db
  /\ Index.put decimal_number plural_s post_model defaults
       (request (Some "1") [] (VObj [("post", VObj [("id", VNull)])])) (initial db)
     = rejected db.
Proof.
  intros rejected db. split.
  - apply (guard_on_null_and_strings MemoryStore.store decimal_number plural_s post_model
             defaults (request (Some "1") [] (VObj [("post", VObj [("id", VStr "01")])]))
             (VObj [("id", VStr "01")]) (VStr "01") db);
      try reflexivity.
    right. exists "01". split; [reflexivity | discriminate].
  - apply (guard_on_null_and_strings MemoryStore.store decimal_number plural_s post_model
             defaults (request (Some "1") [] (VObj [("post", VObj [("id", VNull)])]))
             (VObj [("id", VNull)]) VNull db);
      try reflexivity.
    left. split; [reflexivity | discriminate].
Defined.

(** * Further properties of the handlers module *)

(** X18. In the handlers module [findOne], [createRecord], [updateRecord]
    and [deleteRecord] answer no failure themselves: a rejection of the
    storage call, and the absence of the record to update, are handed to
    [handleRequestError(req, res)] once, with the error as it is
    ([errors.notFound] for the absent record), no response sent yet and
    the one storage call made. *)
Theorem handlers_hand_failures_over
    (S : Storage) (StringToNumber : string -> option Z) (pluralize : value -> value)
    (handleRequestError : Request -> exn -> M S unit)
    (execHook : HOOK -> Options -> Model -> instance -> Result instance)
    (model : Model) (options : Options) (req : Request) (query : Query)
    (input : value) (e : exn) (db db1 : DB S) :
  let after call := {| w_db := db1; w_calls := [call]; w_response := None |} in
  (model_findOne S query db = (Throw e, db1) ->
   Handlers.findOne pluralize handleRequestError model query req options (initial db)
   = handleRequestError req e (after (CallFindOne query)))
  /\ (model_create S input query db = (Throw e, db1) ->
      Handlers.createRecord pluralize handleRequestError execHook model query input req
        options (initial db)
      = handleRequestError req e (after (CallCreate input query)))
  /\ (model_destroy S query db = (Throw e, db1) ->
      Handlers.deleteRecord handleRequestError model query req (initial db)
      = handleRequestError req e (after (CallDestroy query)))
  /\ (changes_primary_key StringToNumber model options req = Ok false ->
      model_findOne S query db = (Throw e, db1) ->
      Handlers.updateRecord StringToNumber pluralize handleRequestError execHook
        model query input req options (initial db)
      = handleRequestError req e (after (CallFindOne query)))
  /\ (changes_primary_key StringToNumber model options req = Ok false ->
      model_findOne S query db = (Ok None, db1) ->
      Handlers.updateRecord StringToNumber pluralize handleRequestError execHook
        model query input req options (initial db)
      = handleRequestError req errors_notFound (after (CallFindOne query))).
Proof.
  intros after. unfold after. repeat split.
  - intros Hfind. unfold Handlers.findOne. now run_known.
  - intros Hcreate. unfold Handlers.createRecord. now run_known.
  - intros Hdestroy. unfold Handlers.deleteRecord. now run_known.
  - intros Hguard Hfind. unfold Handlers.updateRecord. now run_known.
  - intros Hguard Hfind. unfold Handlers.updateRecord. now run_known.
Qed.

Lemma handlers_hand_failures_over_witness :
  let S := rejecting title_taken [] in
  let handle : Request -> exn -> M S unit := fun _ e => respond 500 (message_body e) in
  let req := request (Some "1") [] (VObj [("post", VObj [("title", VStr "X")])]) in
  let query := fst (descriptor PUT {| env_req := req; env_options := defaults |}) in
  let input := VObj [("title", VStr "X")] in
  let after call : World S :=
    {| w_db := (true : DB S); w_calls := [call]; w_response := None |} in
  Handlers.findOne plural_s handle post_model query req defaults (initial (S := S) true)
  = handle req title_taken (after (CallFindOne query))
  /\ Handlers.createRecord plural_s handle (fun _ _ _ r => Ok r) post_model query input req
       defaults (initial (S := S) true)
     = handle req title_taken (after (CallCreate input query))
  /\ Handlers.deleteRecord handle post_model query req (initial (S := S) true)
     = handle req title_taken (after (CallDestroy query))
  /\ Handlers.updateRecord decimal_number plural_s handle (fun _ _ _ r => Ok r)
       post_model query input req defaults (initial (S := S) true)
     = handle req title_taken (after (CallFindOne query)).
Proof.
  intros S handle req query input after.
  destruct (handlers_hand_failures_over S decimal_number plural_s handle
              (fun _ _ _ r => Ok r) post_model defaults req query input title_taken
              true true)
    as (Hfind & Hcreate & Hdestroy & Hupdate & _).
  split; [apply Hfind; reflexivity |].
  split; [apply Hcreate; reflexivity |].
  split; [apply Hdestroy; reflexivity |].
  apply Hupdate; reflexivity.
Defined.

(** X19. A successful [updateRecord]: the fields set on the record found
    are those of the [input] argument, in the order of its keys, whatever
    [req.body] holds beside the primary key the guard looks at; the record
    goes through the [BEFORE_UPDATE] hook, is saved, goes through the
    [AFTER_UPDATE] hook and is answered 200 under the singular name. An
    override name that has no text to name the envelope with makes the
    assignment throw, and the exception goes to the rejection handler. *)
Theorem updateRecord_saves_the_input_fields
    (S : Storage) (StringToNumber : string -> option Z) (pluralize : value -> value)
    (handleRequestError : Request -> exn -> M S unit)
    (execHook : HOOK -> Options -> Model -> instance -> Result instance)
    (model : Model) (options : Options) (req : Request) (query : Query)
    (input : value) (fields : list string) (db db1 db2 : DB S)
    (record updated saved sent : instance) :
  changes_primary_key StringToNumber model options req = Ok false ->
  model_findOne S query db = (Ok (Some record), db1) ->
  Object_keys_of input = Ok fields ->
  execHook BEFORE_UPDATE options model
    (fold_left (fun r field => instance_set S field (own_prop input field) r)
               fields record) = Ok updated ->
  instance_save S updated db1 = (Ok saved, db2) ->
  execHook AFTER_UPDATE options model saved = Ok sent ->
  Handlers.updateRecord StringToNumber pluralize handleRequestError execHook
    model query input req options (initial db)
  = match ToString (if truthy (overrideOutputName options)
                    then overrideOutputName options
                    else VStr (model_name model)) with
    | Ok key =>
        (Ok tt, {| w_db := db2; w_calls := [CallFindOne query; CallSave updated];
                   w_response :=
                     Some {| status := 200; json := VObj [(key, VObj sent)] |} |})
    | Throw e =>
        handleRequestError req e
          {| w_db := db2; w_calls := [CallFindOne query; CallSave updated];
             w_response := None |}
    end.
Proof.
  intros Hguard Hfind Hfields Hbefore Hsave Hafter.
  unfold Handlers.updateRecord.
  unfold bind, catch, lift, ret, findOne_call, save_call, storage_call, initial.
  cbn [fst snd w_db w_calls w_response app].
  repeat (match goal with
          | H : ?x = _ |- context [?x] => rewrite H
          end;
          cbn [fst snd w_db w_calls w_response app]).
  rewrite formatOutput_single, respond_with_key by reflexivity. unfold output_name.
  now destruct (ToString _).
Qed.

Lemma updateRecord_saves_witness :
  let req := request (Some "1") [] (VObj [("post", VObj [("title", VStr "ignored")])]) in
  let query := fst (descriptor PUT {| env_req := req; env_options := defaults |}) in
  let input := VObj [("title", VStr "Updated Title")] in
  let db : DB MemoryStore.store := [[("id", VNum 1); ("title", VStr "One Title")]] in
  let updated : instance := [("id", VNum 1); ("title", VStr "Updated Title")] in
  Handlers.updateRecord decimal_number plural_s
    (fun _ e => respond 500 (message_body e)) (fun _ _ _ r => Ok r)
    post_model query input req defaults (initial db)
  = (Ok tt, {| w_db := ([updated] : DB MemoryStore.store);
               w_calls := [CallFindOne query; CallSave updated];
               w_response :=
                 Some {| status := 200; json := VObj [("post", VObj updated)] |} |}).
Proof.
  intros req query input db updated.
  apply (updateRecord_saves_the_input_fields MemoryStore.store decimal_number plural_s
           (fun _ e => respond 500 (message_body e)) (fun _ _ _ r => Ok r)
           post_model defaults req query input ["title"] db db [updated]
           [("id", VNum 1); ("title", VStr "One Title")] updated updated updated);
    reflexivity.
Defined.

(** * Further properties of the controller factory *)

(** X20. [createController] throws [errors.invalidModel] exactly when the
    model is not an instance of [Sequelize.Model]: the check comes first,
    so nothing in the options or in the environment prevents it, and no
    other failure of the factory is that error. *)
Theorem invalid_model_is_refused (globals : obj) (model : Model) (user : UserOptions) :
  createController globals model user = Throw errors_invalidModel
  <-> instanceof_Model model = false.
Proof.
  split.
  - destruct (instanceof_Model model) eqn:Hmodel; [| reflexivity].
    assert (Hroutes : forall options router,
               register_routes globals options router <> Throw errors_invalidModel).
    { intros options router.
      unfold register_routes, get_prop, read_free, handler_enabled, get_prop, TypeError,
        ReferenceError.
      repeat match goal with
             | |- context [match ?x with _ => _ end] =>
                 lazymatch x with
                 | context [match _ with _ => _ end] => fail
                 | _ => destruct x eqn:?
                 end
             end;
        discriminate. }
    assert (Huse : forall items router, use_all items router <> Throw errors_invalidModel).
    { induction items as [| item rest IH]; intros router; simpl; [discriminate |].
      destruct item as [name | v]; simpl; [apply IH | discriminate]. }
    unfold createController. rewrite Hmodel. cbn [negb]. cbv zeta.
    intros Hthrown. exfalso.
    destruct (middleware_items _) as [items |]; [| now apply Hroutes in Hthrown].
    destruct (use_all items _) as [router | e] eqn:Hused.
    + now apply Hroutes in Hthrown.
    + injection Hthrown as ->. now apply Huse in Hused.
  - intros Hmodel. unfold createController. now rewrite Hmodel.
Qed.

Lemma use_all_refuses (items : list MiddlewareItem) (router : list Registration) :
  forallb is_function items = false ->
  use_all items router = Throw (TypeError "Router.use() requires a middleware function").
Proof.
  revert router. induction items as [| item rest IH]; intros router; simpl; [discriminate |].
  destruct item as [name | v]; simpl; [apply IH | reflexivity].
Qed.

(** X21. A middleware list that holds anything but functions stops the
    factory: [router.use] refuses the first element that is not a function
    with a [TypeError], whatever the handlers flags and the environment
    are, and no router is returned. *)
Theorem middleware_must_be_functions
    (globals : obj) (model : Model) (user : UserOptions) (items : list MiddlewareItem) :
  instanceof_Model model = true ->
  middleware_items (middleware (Object_assign defaults user)) = Some items ->
  forallb is_function items = false ->
  exists message, createController globals model user = Throw (TypeError message).
Proof.
  intros Hmodel Hitems Hdata. eexists.
  unfold createController. rewrite Hmodel. cbn [negb]. cbv zeta.
  assert (Hsame : middleware
                    match dialect_name model with
                    | Some d => if String.eqb d "postgres"
                                then with_useLike (VBool false) (Object_assign defaults user)
                                else Object_assign defaults user
                    | None => Object_assign defaults user
                    end
                  = middleware (Object_assign defaults user)).
  { destruct (dialect_name model) as [d |]; [| reflexivity].
    now destruct (String.eqb d "postgres"). }
  rewrite Hsame, Hitems. now rewrite use_all_refuses.
Qed.

Lemma middleware_must_be_functions_witness :
  exists message, createController [] post_model middleware_by_name = Throw (TypeError message).
Proof.
  apply (middleware_must_be_functions [] post_model middleware_by_name
           [NotAFunction (VStr "auth")]).
  - reflexivity.
  - reflexivity.
  - reflexivity.
Defined.

(** * Further properties of the projection list *)

Lemma append_assoc (a b c : string) : ((a ++ b) ++ c = a ++ (b ++ c))%string.
Proof.
  induction a as [| x a IH]; [reflexivity |].
  change (String x ((a ++ b) ++ c) = String x (a ++ (b ++ c)))%string.
  now rewrite IH.
Qed.

Lemma fold_join_prefix (sep a b : string) (l : list string) :
  fold_left (fun acc y => (acc ++ sep ++ y)%string) l (a ++ b)%string
  = (a ++ fold_left (fun acc y => (acc ++ sep ++ y)%string) l b)%string.
Proof.
  revert b. induction l as [| z l IH]; intros b; [reflexivity |].
  cbn [fold_left]. now rewrite append_assoc, IH.
Qed.

Lemma join_cons (sep x y : string) (l : list string) :
  join sep (x :: y :: l) = (x ++ sep ++ join sep (y :: l))%string.
Proof.
  unfold join. cbn [fold_left]. now rewrite !fold_join_prefix.
Qed.

Lemma split_comma_nonempty (s : string) : split_comma s <> [].
Proof.
  destruct s as [| c r]; simpl; [discriminate |].
  destruct (Ascii.eqb c ","%char); [discriminate |].
  destruct (split_comma r); discriminate.
Qed.

Lemma join_split_comma (s : string) : join "," (split_comma s) = s.
Proof.
  induction s as [| c r IH]; [reflexivity |].
  cbn [split_comma]. destruct (Ascii.eqb_spec c ","%char) as [-> | Hc].
  - destruct (split_comma r) as [| h t] eqn:Hsplit.
    + now destruct (split_comma_nonempty r).
    + rewrite join_cons, IH. reflexivity.
  - destruct (split_comma r) as [| h t] eqn:Hsplit.
    + now destruct (split_comma_nonempty r).
    + destruct t as [| h' t'].
      * cbn in IH. cbn. now rewrite IH.
      * rewrite join_cons in IH. rewrite join_cons. rewrite <- IH. reflexivity.
Qed.

Lemma split_comma_no_comma (s : string) :
  Forall (fun part => has_comma part = false) (split_comma s).
Proof.
  induction s as [| c r IH]; [now repeat constructor |].
  cbn [split_comma]. destruct (Ascii.eqb c ","%char) eqn:Hc.
  - now constructor.
  - destruct (split_comma r) as [| h t].
    + repeat constructor. cbn. now rewrite Hc.
    + inversion IH as [| ? ? Hh Ht]; subst. constructor; [| exact Ht].
      cbn. now rewrite Hc.
Qed.

(** X22. On a [GET] with a non-empty [attributes] string, the projection
    of the descriptor the query builder returns is a non-empty list of
    strings none of which holds a comma, and joining them with commas
    gives the parameter back: empty names between, before or after commas
    are kept in the list. *)
Theorem attributes_are_the_parts_of_the_parameter (env : Env) (s : string)
    (q : Query) (env' : Env) :
  obj_get (req_query (env_req env)) "attributes" = VStr s ->
  s <> "" ->
  buildWhere_descriptor GET env = Ok (q, env') ->
  exists parts,
    q_attributes q = Some (VArr (map VStr parts))
    /\ parts <> []
    /\ Forall (fun part => has_comma part = false) parts
    /\ join "," parts = s.
Proof.
  intros Ha Hs Hreturned. exists (split_comma s).
  split; [| split; [| split]].
  - pose proof (descriptor_GET_returned env q env' Hreturned)
      as (_ & _ & _ & _ & _ & -> & _).
    rewrite Ha.
    assert (Htruthy : truthy (VStr s) = true).
    { simpl. destruct (String.eqb_spec s ""); [contradiction | reflexivity]. }
    rewrite Htruthy. unfold split_attributes. rewrite Ha.
    unfold set_req_query. cbn [req_query]. now rewrite obj_get_set.
  - apply split_comma_nonempty.
  - apply split_comma_no_comma.
  - apply join_split_comma.
Qed.

Lemma attributes_are_the_parts_witness :
  let env := {| env_req := request None [("attributes", VStr "id,,name,")] VUndefined;
                env_options := defaults |} in
  q_attributes (fst (descriptor GET env))
  = Some (VArr [VStr "id"; VStr ""; VStr "name"; VStr ""])
  /\ exists parts,
       q_attributes (fst (descriptor GET env)) = Some (VArr (map VStr parts))
       /\ parts <> []
       /\ Forall (fun part => has_comma part = false) parts
       /\ join "," parts = "id,,name,".
Proof.
  intros env. split; [reflexivity |].
  apply (attributes_are_the_parts_of_the_parameter env "id,,name,"
           (fst (descriptor GET env)) (snd (descriptor GET env))).
  - reflexivity.
  - discriminate.
  - reflexivity.
Defined.

(** * Further properties of the callbacks *)

(** X23. The [beforeQuery] callback has the last word on the query: given
    the descriptor and the request of lines 22-81, the descriptor and the
    request it leaves are what [buildWhere] returns, whatever had been put
    there, and the descriptor is the one the get-one and the delete
    handlers of index.js send to the storage layer, in their only call. *)
Theorem beforeQuery_has_the_last_word
    (S : Storage) (pluralize : value -> value) (model : Model) (options : Options)
    (req : Request) (h : Hooks)
    (f : Query -> Request -> Result (Query * Request))
    (listed deleted found removed : Query) (env1 env2 : Env)
    (req1 req2 : Request) (db : DB S) :
  hooks options = Some h ->
  beforeQuery h = Some f ->
  let env := {| env_req := req; env_options := options |} in
  buildWhere_descriptor GET env = Ok (listed, env1) ->
  buildWhere_descriptor DELETE env = Ok (deleted, env2) ->
  f listed (env_req env1) = Ok (found, req1) ->
  f deleted (env_req env2) = Ok (removed, req2) ->
  buildWhere GET env = Ok (found, {| env_req := req1; env_options := options |})
  /\ buildWhere DELETE env = Ok (removed, {| env_req := req2; env_options := options |})
  /\ w_calls (snd (Index.get_one pluralize model options req (initial db)))
     = [CallFindOne found]
  /\ w_calls (snd (Index.delete options req (initial db))) = [CallDestroy removed].
Proof.
  intros Hhooks Hbefore env Hlisted Hdeleted Hget Hdelete.
  assert (Hbuild : forall method q0 env0 q r,
             buildWhere_descriptor method env = Ok (q0, env0) ->
             f q0 (env_req env0) = Ok (q, r) ->
             buildWhere method env = Ok (q, {| env_req := r; env_options := options |})).
  { intros method q0 env0 q r Hreturned Hf. unfold buildWhere. rewrite Hreturned.
    assert (Hoptions : env_options env0 = options).
    { rewrite (descriptor_env method env q0 env0 Hreturned).
      now destruct (Method_eqb method GET
                    && truthy (obj_get (req_query (env_req env)) "attributes")). }
    unfold call_beforeQuery. rewrite Hoptions, Hhooks, Hbefore, Hf.
    unfold with_req. now rewrite Hoptions. }
  pose proof (Hbuild GET listed env1 found req1 Hlisted Hget) as Hfound.
  pose proof (Hbuild DELETE deleted env2 removed req2 Hdeleted Hdelete) as Hremoved.
  unfold env in Hfound, Hremoved.
  split; [exact Hfound |]. split; [exact Hremoved |]. split.
  - unfold Index.get_one, Index.build. rewrite Hfound. run_cases; reflexivity.
  - unfold Index.delete, Index.build, Index.delete_catch. rewrite Hremoved.
    run_cases; reflexivity.
Qed.

Lemma beforeQuery_has_the_last_word_witness :
  let everything : Query :=
    {| q_where := ∅; q_include := None; q_limit := VUndefined; q_offset := VUndefined;
       q_returning := None; q_attributes := None |} in
  let h := {| beforeQuery := Some (fun _ r => Ok (everything, r));
              afterCreate := None; beforeUpdate := None; afterUpdate := None |} in
  let options := with_hooks h in
  let req := request (Some "1") [] VUndefined in
  let db : DB MemoryStore.store := [[("id", VNum 7); ("title", VStr "Seven")]] in
  buildWhere GET {| env_req := req; env_options := options |}
  = Ok (everything, {| env_req := req; env_options := options |})
  /\ buildWhere DELETE {| env_req := req; env_options := options |}
     = Ok (everything, {| env_req := req; env_options := options |})
  /\ w_calls (snd (Index.get_one plural_s post_model options req (initial db)))
     = [CallFindOne everything]
  /\ w_calls (snd (Index.delete options req (initial db))) = [CallDestroy everything].
Proof.
  intros everything h options req db.
  apply (beforeQuery_has_the_last_word MemoryStore.store plural_s post_model options req h
           (fun _ r => Ok (everything, r))
           (fst (descriptor GET {| env_req := req; env_options := options |}))
           (fst (descriptor DELETE {| env_req := req; env_options := options |}))
           everything everything
           (snd (descriptor GET {| env_req := req; env_options := options |}))
           (snd (descriptor DELETE {| env_req := req; env_options := options |}))
           req req db);
    reflexivity.
Defined.


